(** * keto-sell-tracker: the sales tracker and its store, verified

    A shallow embedding of [src/components/SalesTracker.tsx] (the React
    component: metrics, cart, sale submission, fulfilment) and of the SQL
    migrations that define the store it talks to (tables [products],
    [sales], [sale_items] and the stock trigger on [sale_items]).

    Modelling conventions.
    - A JavaScript number that comes from the store (prices, costs, stocks,
      amounts, persisted quantities) is an integer of [Z]: double arithmetic
      is exact on the integers the shop handles, and JSON carries no NaN.
      The one number the component makes itself is [parseInt(quantity)],
      which may be NaN; cart quantities and everything computed from them
      are therefore [jsnum], an integer or NaN.
    - A JavaScript string is a [string]; each character stands for one code
      unit below 256, so the white space that [trim] and [parseInt] strip is
      the Latin-1 part of ECMAScript's WhiteSpace and LineTerminator.
    - React state is a record threaded through the handlers; toasts are
      appended to a log kept in that record; the calls made to the data
      service are appended to a request log.
    - The store is a record of three tables.  A statement that fails leaves
      the tables as they were (PostgreSQL rolls the statement back).
      Columns the component never reads ([created_at], [updated_at]) are
      left out, and SQL [INTEGER]/[NUMERIC] are unbounded integers. *)

From Stdlib Require Import ZArith List String Ascii Bool Lia Permutation.
Import ListNotations.
Local Open Scope string_scope.
Local Open Scope list_scope.
Local Open Scope Z_scope.

(** ** JavaScript numbers that may be NaN *)

Inductive jsnum : Type :=
| JNum (z : Z)
| JNaN.

Definition jadd (a b : jsnum) : jsnum :=
  match a, b with
  | JNum x, JNum y => JNum (x + y)
  | _, _ => JNaN
  end.

Definition jmul (a b : jsnum) : jsnum :=
  match a, b with
  | JNum x, JNum y => JNum (x * y)
  | _, _ => JNaN
  end.

(** [a <= b] and [a > b]: every comparison with NaN is false. *)
Definition jle (a b : jsnum) : bool :=
  match a, b with
  | JNum x, JNum y => x <=? y
  | _, _ => false
  end.

Definition jgt (a b : jsnum) : bool :=
  match a, b with
  | JNum x, JNum y => y <? x
  | _, _ => false
  end.

(** ** JavaScript strings: [trim], [parseInt], number to string *)

Definition is_whitespace (c : ascii) : bool :=
  let n := nat_of_ascii c in
  ((9 <=? n) && (n <=? 13) || (n =? 32) || (n =? 160))%nat.

Fixpoint trimStart (s : string) : string :=
  match s with
  | String c rest => if is_whitespace c then trimStart rest else s
  | EmptyString => EmptyString
  end.

(** [trimEnd]: a character is dropped when it is white space and everything
    after it has been dropped. *)
Fixpoint trimEnd (s : string) : string :=
  match s with
  | EmptyString => EmptyString
  | String c rest =>
      match trimEnd rest with
      | EmptyString => if is_whitespace c then EmptyString else String c EmptyString
      | r => String c r
      end
  end.

Definition trim (s : string) : string := trimEnd (trimStart s).

(** Value of a digit in the given radix, if it is one. *)
Definition digit_value (radix : Z) (c : ascii) : option Z :=
  let n := Z.of_nat (nat_of_ascii c) in
  let v :=
    if (48 <=? n) && (n <=? 57) then Some (n - 48)
    else if (97 <=? n) && (n <=? 122) then Some (n - 87)
    else if (65 <=? n) && (n <=? 90) then Some (n - 55)
    else None in
  match v with
  | Some d => if d <? radix then Some d else None
  | None => None
  end.

(** The longest prefix of radix digits, read left to right; [None] when the
    prefix is empty. *)
Fixpoint parse_digits (radix : Z) (acc : option Z) (s : string) : option Z :=
  match s with
  | EmptyString => acc
  | String c rest =>
      match digit_value radix c with
      | Some d =>
          parse_digits radix
            (Some (match acc with Some a => a * radix + d | None => d end)) rest
      | None => acc
      end
  end.

(** [parseInt(s)] with no radix argument: leading white space, an optional
    sign, an optional [0x]/[0X] prefix selecting radix 16, then digits. *)
Definition parseInt (s : string) : jsnum :=
  let s1 := trimStart s in
  let '(sign, s2) :=
    match s1 with
    | String "-" r => (-1, r)
    | String "+" r => (1, r)
    | _ => (1, s1)
    end in
  let '(radix, s3) :=
    match s2 with
    | String "0" (String "x" r) => (16, r)
    | String "0" (String "X" r) => (16, r)
    | _ => (10, s2)
    end in
  match parse_digits radix None s3 with
  | Some n => JNum (sign * n)
  | None => JNaN
  end.

Fixpoint pos_digits (fuel : nat) (n : Z) (acc : string) : string :=
  match fuel with
  | O => acc
  | S f =>
      let acc' := String (ascii_of_nat (Z.to_nat (48 + n mod 10))) acc in
      if n / 10 =? 0 then acc' else pos_digits f (n / 10) acc'
  end.

(** [String(n)] for an integer, as a template literal renders it. *)
Definition string_of_Z (n : Z) : string :=
  if n <? 0 then String "-" (pos_digits (S (Z.to_nat (Z.log2 (- n)))) (- n) "")
  else pos_digits (S (Z.to_nat (Z.log2 n))) n "".

(** ** Data model (the component's interfaces) *)

Inductive Status : Type := not_fulfilled | fulfilled.

Definition Status_eqb (a b : Status) : bool :=
  match a, b with
  | not_fulfilled, not_fulfilled => true
  | fulfilled, fulfilled => true
  | _, _ => false
  end.

Record Product : Type := mkProduct {
  p_id : string;
  p_name : string;
  p_price : Z;
  p_cost : Z;
  p_stock : Z
}.

Record SaleItem : Type := mkSaleItem {
  si_id : string;
  si_sale_id : string;
  si_product_id : string;
  si_quantity : Z;
  si_unit_price : Z;
  si_subtotal : Z;
  si_products_name : option string
}.

Record Sale : Type := mkSale {
  s_id : string;
  s_customer_name : string;
  s_status : Status;
  s_total_amount : Z;
  s_sale_date : string;
  s_sale_items : list SaleItem
}.

Record CartItem : Type := mkCartItem {
  ci_product_id : string;
  ci_quantity : jsnum
}.

Record Metrics : Type := mkMetrics {
  totalSales : Z;
  totalRevenue : Z;
  totalProfit : Z;
  totalUnits : Z
}.

(** [productsData.find(p => p.id === id)]: the first product with that id. *)
Definition find_product (productsData : list Product) (id : string) : option Product :=
  find (fun p => String.eqb (p_id p) id) productsData.

(** ** calculateMetrics *)

(** The body of the inner [forEach]: one line item updates the two running
    totals [(totalUnits, totalProfit)]. *)
Definition metrics_item_step (productsData : list Product)
    (acc : Z * Z) (item : SaleItem) : Z * Z :=
  let '(units, profit) := acc in
  let units := units + si_quantity item in
  match find_product productsData (si_product_id item) with
  | Some product =>
      let itemProfit := (si_unit_price item - p_cost product) * si_quantity item in
      (units, profit + itemProfit)
  | None => (units, profit)
  end.

(** The body of the outer [forEach]. *)
Definition metrics_sale_step (productsData : list Product)
    (acc : Z * Z) (sale : Sale) : Z * Z :=
  fold_left (metrics_item_step productsData) (s_sale_items sale) acc.

Definition calculateMetrics (salesData : list Sale) (productsData : list Product)
    : Metrics :=
  let totalSales := Z.of_nat (List.length salesData) in
  let totalRevenue :=
    fold_left (fun sum sale => sum + s_total_amount sale) salesData 0 in
  let '(totalUnits, totalProfit) :=
    fold_left (metrics_sale_step productsData) salesData (0, 0) in
  mkMetrics totalSales totalRevenue totalProfit totalUnits.

(** ** Component state *)

Inductive Variant : Type := default_variant | destructive.

Record Toast : Type := mkToast {
  title : string;
  description : string;
  variant : Variant
}.

(** The [useState] cells of the component, and the toasts shown so far
    (oldest first). *)
Record State : Type := mkState {
  products : list Product;
  sales : list Sale;
  metrics : Metrics;
  customerName : string;
  cart : list CartItem;
  selectedProduct : string;
  quantity : string;
  isSubmitting : bool;
  toasts : list Toast
}.

Definition toast (t : Toast) (st : State) : State :=
  mkState (products st) (sales st) (metrics st) (customerName st) (cart st)
    (selectedProduct st) (quantity st) (isSubmitting st) (toasts st ++ [t]).

(** [setProducts] and [setSales]; the effect on [[sales, products]] runs
    [calculateMetrics] again, which [setMetrics] stores. *)
Definition setProducts (ps : list Product) (st : State) : State :=
  mkState ps (sales st) (calculateMetrics (sales st) ps) (customerName st)
    (cart st) (selectedProduct st) (quantity st) (isSubmitting st) (toasts st).

Definition setSales (ss : list Sale) (st : State) : State :=
  mkState (products st) ss (calculateMetrics ss (products st)) (customerName st)
    (cart st) (selectedProduct st) (quantity st) (isSubmitting st) (toasts st).

Definition setCustomerName (name : string) (st : State) : State :=
  mkState (products st) (sales st) (metrics st) name (cart st)
    (selectedProduct st) (quantity st) (isSubmitting st) (toasts st).

Definition setCart (c : list CartItem) (st : State) : State :=
  mkState (products st) (sales st) (metrics st) (customerName st) c
    (selectedProduct st) (quantity st) (isSubmitting st) (toasts st).

Definition setSelectedProduct (id : string) (st : State) : State :=
  mkState (products st) (sales st) (metrics st) (customerName st) (cart st)
    id (quantity st) (isSubmitting st) (toasts st).

Definition setQuantity (q : string) (st : State) : State :=
  mkState (products st) (sales st) (metrics st) (customerName st) (cart st)
    (selectedProduct st) q (isSubmitting st) (toasts st).

Definition setIsSubmitting (b : bool) (st : State) : State :=
  mkState (products st) (sales st) (metrics st) (customerName st) (cart st)
    (selectedProduct st) (quantity st) b (toasts st).

Definition initial_state : State :=
  mkState [] [] (mkMetrics 0 0 0 0) "" [] "" "" false [].

(** ** Cart *)

Definition find_cart_item (c : list CartItem) (id : string) : option CartItem :=
  find (fun item => String.eqb (ci_product_id item) id) c.

Definition addToCart (st : State) : State :=
  if String.eqb (selectedProduct st) "" || String.eqb (quantity st) "" then
    toast (mkToast "Error" "Please select a product and enter quantity" destructive) st
  else
    match find_product (products st) (selectedProduct st) with
    | None => st
    | Some product =>
        let qty := parseInt (quantity st) in
        if jle qty (JNum 0) || jgt qty (JNum (p_stock product)) then
          toast (mkToast "Error"
                   ("Invalid quantity. Available stock: " ++ string_of_Z (p_stock product))%string
                   destructive) st
        else
          let cart' :=
            match find_cart_item (cart st) (selectedProduct st) with
            | Some _ =>
                map (fun item =>
                       if String.eqb (ci_product_id item) (selectedProduct st)
                       then mkCartItem (ci_product_id item) (jadd (ci_quantity item) qty)
                       else item) (cart st)
            | None => cart st ++ [mkCartItem (selectedProduct st) qty]
            end in
          setQuantity "" (setSelectedProduct "" (setCart cart' st))
    end.

Definition removeFromCart (productId : string) (st : State) : State :=
  setCart (filter (fun item => negb (String.eqb (ci_product_id item) productId)) (cart st)) st.

Definition getCartTotal (st : State) : jsnum :=
  fold_left
    (fun total item =>
       let product := find_product (products st) (ci_product_id item) in
       jadd total
         (match product with
          | Some p => jmul (JNum (p_price p)) (ci_quantity item)
          | None => JNum 0
          end))
    (cart st) (JNum 0).

(** ** The store (SQL migrations) *)

Record SaleRow : Type := mkSaleRow {
  sr_id : string;
  sr_customer_name : string;
  sr_status : Status;
  sr_total_amount : Z;
  sr_sale_date : string
}.

Record SaleItemRow : Type := mkSaleItemRow {
  ir_id : string;
  ir_sale_id : string;
  ir_product_id : string;
  ir_quantity : Z;
  ir_unit_price : Z;
  ir_subtotal : Z
}.

Record Db : Type := mkDb {
  db_products : list Product;
  db_sales : list SaleRow;
  db_sale_items : list SaleItemRow
}.

(** What the client can get back instead of data.  Only the text raised by
    the trigger is in the migrations; the other texts are the store's. *)
Inductive ServiceError : Type :=
| NetworkError (message : string)
| NotNullViolation (column : string)
| UniqueViolation (table : string)
| ForeignKeyViolation (column : string)
| Raised (message : string).

Definition error_message (e : ServiceError) : string :=
  match e with
  | NetworkError m => m
  | NotNullViolation c => "null value violates not-null constraint: " ++ c
  | UniqueViolation t => "duplicate key value violates unique constraint: " ++ t
  | ForeignKeyViolation c => "violates foreign key constraint: " ++ c
  | Raised m => m
  end%string.

Inductive result (A : Type) : Type :=
| Ok (a : A)
| Err (e : ServiceError).
Arguments Ok {A} a.
Arguments Err {A} e.

Definition is_ok {A : Type} (r : result A) : bool :=
  match r with Ok _ => true | Err _ => false end.

(** The payloads the component sends. *)
Record SaleInsert : Type := mkSaleInsert {
  ins_customer_name : string;
  ins_total_amount : jsnum;
  ins_status : Status
}.

Record SaleItemInsert : Type := mkSaleItemInsert {
  ii_sale_id : string;
  ii_product_id : string;
  ii_quantity : jsnum;
  ii_unit_price : Z;
  ii_subtotal : jsnum
}.

Definition set_stock (p : Product) (n : Z) : Product :=
  mkProduct (p_id p) (p_name p) (p_price p) (p_cost p) n.

(** [SET stock = stock - NEW.quantity WHERE id = NEW.product_id], on one
    row of [products]. *)
Definition decrement_for (NEW : SaleItemRow) (x : Product) : Product :=
  if String.eqb (p_id x) (ir_product_id NEW)
  then set_stock x (p_stock x - ir_quantity NEW)
  else x.

(** The trigger function [update_stock_on_sale_item], run for [NEW] on the
    [products] table: the [UPDATE], then the check on the scalar subquery
    (no row: NULL, the test is not true; several rows: the subquery fails). *)
Definition update_stock_on_sale_item (NEW : SaleItemRow) (ps : list Product)
    : result (list Product) :=
  let ps' := map (decrement_for NEW) ps in
  match filter (fun p => String.eqb (p_id p) (ir_product_id NEW)) ps' with
  | [] => Ok ps'
  | [p] =>
      if p_stock p <? 0 then Err (Raised "Insufficient stock for product")
      else Ok ps'
  | _ => Err (Raised "more than one row returned by a subquery used as an expression")
  end.

(** One payload row becomes a table row: JSON has no NaN, so a NaN arrives
    as [null] and the column's [NOT NULL] refuses it. *)
Definition sale_item_row (id : string) (r : SaleItemInsert) : result SaleItemRow :=
  match ii_quantity r, ii_subtotal r with
  | JNum q, JNum s =>
      Ok (mkSaleItemRow id (ii_sale_id r) (ii_product_id r) q (ii_unit_price r) s)
  | JNaN, _ => Err (NotNullViolation "quantity")
  | _, JNaN => Err (NotNullViolation "subtotal")
  end.

Definition has_id {A : Type} (key : A -> string) (id : string) (l : list A) : bool :=
  existsb (fun x => String.eqb (key x) id) l.

(** Rows enter [sale_items] one by one; the [i]-th gets the identifier
    [gen i] ([gen_random_uuid()]), which the primary key wants unused.
    The result is the list of new rows. *)
Fixpoint insert_rows (gen : nat -> string) (i : nat) (rows : list SaleItemInsert)
    (table : list SaleItemRow) : result (list SaleItemRow) :=
  match rows with
  | [] => Ok []
  | r :: rest =>
      match sale_item_row (gen i) r with
      | Err e => Err e
      | Ok row =>
          if has_id ir_id (ir_id row) table then Err (UniqueViolation "sale_items")
          else
            match insert_rows gen (S i) rest (table ++ [row]) with
            | Err e => Err e
            | Ok new_rows => Ok (row :: new_rows)
            end
      end
  end.

(** What runs after the rows are in, for each new row in turn: the two
    foreign keys, then [update_stock_on_sale_item_trigger]. *)
Fixpoint after_insert_rows (new_rows : list SaleItemRow) (sales_table : list SaleRow)
    (ps : list Product) : result (list Product) :=
  match new_rows with
  | [] => Ok ps
  | NEW :: rest =>
      if negb (has_id sr_id (ir_sale_id NEW) sales_table)
      then Err (ForeignKeyViolation "sale_id")
      else if negb (has_id p_id (ir_product_id NEW) ps)
      then Err (ForeignKeyViolation "product_id")
      else
        match update_stock_on_sale_item NEW ps with
        | Err e => Err e
        | Ok ps' => after_insert_rows rest sales_table ps'
        end
  end.

(** [insert-line-items]: one statement; on any failure the tables stay as
    they were.  [fault] is a failure of the call itself. *)
Definition insert_sale_items (fault : option string) (gen : nat -> string)
    (rows : list SaleItemInsert) (db : Db) : Db * result unit :=
  match fault with
  | Some m => (db, Err (NetworkError m))
  | None =>
      match insert_rows gen 0 rows (db_sale_items db) with
      | Err e => (db, Err e)
      | Ok new_rows =>
          match after_insert_rows new_rows (db_sales db) (db_products db) with
          | Err e => (db, Err e)
          | Ok ps' => (mkDb ps' (db_sales db) (db_sale_items db ++ new_rows), Ok tt)
          end
      end
  end.

(** [insert-sale], returning the created row ([.select().single()]);
    [id] and [now] are the column defaults [gen_random_uuid()] and [now()]. *)
Definition insert_sale (fault : option string) (id now : string)
    (payload : SaleInsert) (db : Db) : Db * result SaleRow :=
  match fault with
  | Some m => (db, Err (NetworkError m))
  | None =>
      match ins_total_amount payload with
      | JNaN => (db, Err (NotNullViolation "total_amount"))
      | JNum total =>
          if has_id sr_id id (db_sales db) then (db, Err (UniqueViolation "sales"))
          else
            let row := mkSaleRow id (ins_customer_name payload)
                         (ins_status payload) total now in
            (mkDb (db_products db) (db_sales db ++ [row]) (db_sale_items db), Ok row)
      end
  end.

Definition set_status (r : SaleRow) (st : Status) : SaleRow :=
  mkSaleRow (sr_id r) (sr_customer_name r) st (sr_total_amount r) (sr_sale_date r).

(** [update-sale-status]: [UPDATE sales SET status = ... WHERE id = ...]. *)
Definition update_sale_status (fault : option string) (saleId : string)
    (st : Status) (db : Db) : Db * result unit :=
  match fault with
  | Some m => (db, Err (NetworkError m))
  | None =>
      (mkDb (db_products db)
         (map (fun r => if String.eqb (sr_id r) saleId then set_status r st else r)
            (db_sales db))
         (db_sale_items db),
       Ok tt)
  end.

(** [ORDER BY]: a stable insertion sort; collation and timestamp order are
    taken to be the order of code units. *)
Fixpoint insert_by {A : Type} (le : A -> A -> bool) (x : A) (l : list A) : list A :=
  match l with
  | [] => [x]
  | y :: t => if le x y then x :: l else y :: insert_by le x t
  end.

Definition order_by {A : Type} (le : A -> A -> bool) (l : list A) : list A :=
  fold_right (insert_by le) [] l.

(** [fetch-products]: every column, ordered by [name]. *)
Definition select_products (fault : option string) (db : Db) : result (list Product) :=
  match fault with
  | Some m => Err (NetworkError m)
  | None => Ok (order_by (fun a b => String.leb (p_name a) (p_name b)) (db_products db))
  end.

(** The embedded resource of one sale: its [sale_items] rows, each with the
    name of its product. *)
Definition sale_items_of (db : Db) (saleId : string) : list SaleItem :=
  map (fun r =>
         mkSaleItem (ir_id r) (ir_sale_id r) (ir_product_id r) (ir_quantity r)
           (ir_unit_price r) (ir_subtotal r)
           (option_map p_name (find_product (db_products db) (ir_product_id r))))
    (filter (fun r => String.eqb (ir_sale_id r) saleId) (db_sale_items db)).

Definition sale_of_row (db : Db) (r : SaleRow) : Sale :=
  mkSale (sr_id r) (sr_customer_name r) (sr_status r) (sr_total_amount r)
    (sr_sale_date r) (sale_items_of db (sr_id r)).

(** [fetch-sales]: newest first. *)
Definition select_sales (fault : option string) (db : Db) : result (list Sale) :=
  match fault with
  | Some m => Err (NetworkError m)
  | None =>
      Ok (order_by (fun a b => String.leb (s_sale_date b) (s_sale_date a))
            (map (sale_of_row db) (db_sales db)))
  end.

(** ** The component talking to the store *)

Inductive Request : Type :=
| ReqSelectProducts
| ReqSelectSales
| ReqInsertSale (payload : SaleInsert)
| ReqInsertSaleItems (rows : list SaleItemInsert)
| ReqUpdateSaleStatus (saleId : string) (status : Status).

(** The component's state, the store, and the calls made so far.  Handlers
    run one at a time, each to its end: a call to the store and its answer
    are one step of the world. *)
Record World : Type := mkWorld {
  w_ui : State;
  w_db : Db;
  w_requests : list Request
}.

Definition with_ui (f : State -> State) (w : World) : World :=
  mkWorld (f (w_ui w)) (w_db w) (w_requests w).

Definition request (r : Request) (db' : Db) (w : World) : World :=
  mkWorld (w_ui w) db' (w_requests w ++ [r]).

(** [a || b] on strings: the empty string is falsy. *)
Definition or_else (a b : string) : string :=
  if String.eqb a "" then b else a.

Definition fetchProducts (fault : option string) (w : World) : World :=
  let w1 := request ReqSelectProducts (w_db w) w in
  match select_products fault (w_db w) with
  | Ok data => with_ui (setProducts data) w1
  | Err _ =>
      with_ui (toast (mkToast "Error" "Failed to fetch products" destructive)) w1
  end.

Definition fetchSales (fault : option string) (w : World) : World :=
  let w1 := request ReqSelectSales (w_db w) w in
  match select_sales fault (w_db w) with
  | Ok data => with_ui (setSales data) w1
  | Err error =>
      with_ui (toast (mkToast "Error"
                        ("Failed to fetch sales: " ++ error_message error)%string
                        destructive)) w1
  end.

(** What the outside contributes to one run of [handleSaleSubmit]: whether
    each call fails on the way, and the identifiers and time the store
    generates. *)
Record SubmitEnv : Type := mkSubmitEnv {
  sale_fault : option string;
  sale_uuid : string;
  sale_now : string;
  items_fault : option string;
  item_uuid : nat -> string;
  products_fault : option string;
  sales_fault : option string
}.

(** The line items built from the cart, for the sale just created. *)
Definition saleItems_of_cart (st : State) (saleData : SaleRow) : list SaleItemInsert :=
  map (fun item =>
         let product := find_product (products st) (ci_product_id item) in
         let price := match product with Some p => p_price p | None => 0 end in
         mkSaleItemInsert (sr_id saleData) (ci_product_id item) (ci_quantity item)
           price (jmul (JNum price) (ci_quantity item)))
    (cart st).

Definition submit_failed (error : ServiceError) (w : World) : World :=
  with_ui (toast (mkToast "Error"
                    (or_else (error_message error) "Failed to record sale")
                    destructive)) w.

(** [handleSaleSubmit].  The handler reads [customerName], [cart] and
    [products] as they were when it started.  [fetchProducts()] and
    [fetchSales()] are not awaited: their requests leave inside [try],
    their answers are applied after [finally]. *)
Definition handleSaleSubmit (env : SubmitEnv) (w : World) : World :=
  let st := w_ui w in
  if String.eqb (trim (customerName st)) "" then
    with_ui (toast (mkToast "Error" "Please enter customer name" destructive)) w
  else if Nat.eqb (List.length (cart st)) 0 then
    with_ui (toast (mkToast "Error" "Please add items to cart" destructive)) w
  else
    let w0 := with_ui (setIsSubmitting true) w in
    let payload := mkSaleInsert (trim (customerName st)) (getCartTotal st) not_fulfilled in
    let '(db1, saleResult) :=
      insert_sale (sale_fault env) (sale_uuid env) (sale_now env) payload (w_db w0) in
    let w1 := request (ReqInsertSale payload) db1 w0 in
    match saleResult with
    | Err saleError =>
        with_ui (setIsSubmitting false) (submit_failed saleError w1)
    | Ok saleData =>
        let saleItems := saleItems_of_cart st saleData in
        let '(db2, itemsResult) :=
          insert_sale_items (items_fault env) (item_uuid env) saleItems (w_db w1) in
        let w2 := request (ReqInsertSaleItems saleItems) db2 w1 in
        match itemsResult with
        | Err itemsError =>
            with_ui (setIsSubmitting false) (submit_failed itemsError w2)
        | Ok _ =>
            let w3 :=
              with_ui (toast (mkToast "Success!"
                                ("Sale recorded for " ++ customerName st)%string
                                default_variant)) w2 in
            let w4 := with_ui (setCart []) (with_ui (setCustomerName "") w3) in
            let w5 := with_ui (setIsSubmitting false) w4 in
            fetchSales (sales_fault env) (fetchProducts (products_fault env) w5)
        end
    end.

Record FulfilEnv : Type := mkFulfilEnv {
  update_fault : option string;
  refetch_fault : option string
}.

Definition markAsFulfilled (env : FulfilEnv) (saleId : string) (w : World) : World :=
  let '(db1, r) := update_sale_status (update_fault env) saleId fulfilled (w_db w) in
  let w1 := request (ReqUpdateSaleStatus saleId fulfilled) db1 w in
  match r with
  | Err error =>
      with_ui (toast (mkToast "Error"
                        (or_else (error_message error) "Failed to update order status")
                        destructive)) w1
  | Ok _ =>
      fetchSales (refetch_fault env)
        (with_ui (toast (mkToast "Success!" "Order marked as fulfilled" default_variant)) w1)
  end.

(** The list under "Orders to Fulfill". *)
Definition pending (ss : list Sale) : list Sale :=
  filter (fun sale => Status_eqb (s_status sale) not_fulfilled) ss.

(** What can happen to the system: the mount effect, the form's inputs and
    buttons, and the Fulfill button. *)
Inductive Action : Type :=
| Mount (products_fault sales_fault : option string)
| TypeCustomerName (name : string)
| SelectProduct (id : string)
| TypeQuantity (q : string)
| ClickAdd
| ClickRemove (productId : string)
| SubmitSale (env : SubmitEnv)
| ClickFulfill (env : FulfilEnv) (saleId : string).

Definition step (a : Action) (w : World) : World :=
  match a with
  | Mount pf sf => fetchSales sf (fetchProducts pf w)
  | TypeCustomerName name => with_ui (setCustomerName name) w
  | SelectProduct id => with_ui (setSelectedProduct id) w
  | TypeQuantity q => with_ui (setQuantity q) w
  | ClickAdd => with_ui addToCart w
  | ClickRemove productId => with_ui (removeFromCart productId) w
  | SubmitSale env => handleSaleSubmit env w
  | ClickFulfill env saleId => markAsFulfilled env saleId w
  end.

Definition run (actions : list Action) (w : World) : World :=
  fold_left (fun w a => step a w) actions w.

(** * Notions used in the statements *)

Definition Zsum (l : list Z) : Z := fold_right Z.add 0 l.

(** Every line item of every sale, in order. *)
Definition all_items (S : list Sale) : list SaleItem := flat_map s_sale_items S.

(** The line item's product occurs in [P]. *)
Definition occurs_in_products (P : list Product) (item : SaleItem) : bool :=
  has_id p_id (si_product_id item) P.

(** The current cost of the product a line item refers to. *)
Definition current_cost (P : list Product) (item : SaleItem) : Z :=
  match find_product P (si_product_id item) with
  | Some p => p_cost p
  | None => 0
  end.

(** The metrics as the specification words them. *)
Definition spec_totalRevenue (S : list Sale) : Z := Zsum (map s_total_amount S).

Definition spec_totalUnits (S : list Sale) : Z := Zsum (map si_quantity (all_items S)).

Definition spec_totalProfit (P : list Product) (S : list Sale) : Z :=
  Zsum (map (fun item => si_quantity item * (si_unit_price item - current_cost P item))
          (filter (occurs_in_products P) (all_items S))).

(** What one line item adds to the profit. *)
Definition profit_contribution (P : list Product) (item : SaleItem) : Z :=
  if occurs_in_products P item
  then si_quantity item * (si_unit_price item - current_cost P item)
  else 0.

Definition cart_ids (c : list CartItem) : list string := map ci_product_id c.

(** The cart in which every entry for [id] has [qty] added to its quantity. *)
Definition merged_cart (c : list CartItem) (id : string) (qty : jsnum) : list CartItem :=
  map (fun item =>
         if String.eqb (ci_product_id item) id
         then mkCartItem (ci_product_id item) (jadd (ci_quantity item) qty)
         else item) c.

(** The three calls of a submission, as [handleSaleSubmit] makes them from
    the world [w] it starts in. *)
Definition sale_payload (st : State) : SaleInsert :=
  mkSaleInsert (trim (customerName st)) (getCartTotal st) not_fulfilled.

Definition sale_step (env : SubmitEnv) (w : World) : Db * result SaleRow :=
  insert_sale (sale_fault env) (sale_uuid env) (sale_now env)
    (sale_payload (w_ui w)) (w_db w).

Definition items_step (env : SubmitEnv) (w : World) (saleData : SaleRow)
    : Db * result unit :=
  insert_sale_items (items_fault env) (item_uuid env)
    (saleItems_of_cart (w_ui w) saleData) (fst (sale_step env w)).

(** Both inserts of the submission succeed. *)
Definition both_inserts_succeed (env : SubmitEnv) (w : World) : bool :=
  match snd (sale_step env w) with
  | Ok saleData => is_ok (snd (items_step env w saleData))
  | Err _ => false
  end.

(** The status the store holds for a sale. *)
Definition sale_status (id : string) (db : Db) : option Status :=
  option_map sr_status (find (fun r => String.eqb (sr_id r) id) (db_sales db)).


(** The quantity the new rows take from product [id]. *)
Definition sold (new_rows : list SaleItemRow) (id : string) : Z :=
  Zsum (map ir_quantity (filter (fun r => String.eqb (ir_product_id r) id) new_rows)).




Definition jsum (l : list jsnum) : jsnum := fold_right jadd (JNum 0) l.

(** The cart entry's product is in the current product list. *)
Definition resolvable (st : State) (item : CartItem) : bool :=
  has_id p_id (ci_product_id item) (products st).

(** The current price of a cart entry's product. *)
Definition current_price (st : State) (item : CartItem) : Z :=
  match find_product (products st) (ci_product_id item) with
  | Some p => p_price p
  | None => 0
  end.

(** The two products the migrations seed, and worlds built on them. *)
Definition ketoMolde : Product := mkProduct "p-molde" "Keto Molde" 6900 4050 20.
Definition ketoRedondito : Product := mkProduct "p-redondito" "Keto Redondito" 6900 4050 20.

Definition seeded_db : Db := mkDb [ketoMolde; ketoRedondito] [] [].

Definition calm : SubmitEnv :=
  mkSubmitEnv None "s-1" "2025-08-21T10:00:00Z" None
    (fun i => ("i-" ++ string_of_Z (Z.of_nat i))%string) None None.

Definition loaded_state : State :=
  mkState [ketoMolde; ketoRedondito] [] (mkMetrics 0 0 0 0) "" [] "" "" false [].

(** An order ready to be submitted: 2 Keto Molde and 1 Keto Redondito. *)
Definition order_state : State :=
  mkState [ketoMolde; ketoRedondito] [] (mkMetrics 0 0 0 0) " Ana "
    [mkCartItem "p-molde" (JNum 2); mkCartItem "p-redondito" (JNum 1)]
    "" "" false [].

Definition order_world : World := mkWorld order_state seeded_db [].

(** The same submission when the first call does not get through. *)
Definition offline : SubmitEnv :=
  mkSubmitEnv (Some "Failed to fetch") "s-1" "2025-08-21T10:00:00Z" None
    (fun i => ("i-" ++ string_of_Z (Z.of_nat i))%string) None None.

(** A second submission, later. *)
Definition calm_again : SubmitEnv :=
  mkSubmitEnv None "s-2" "2025-08-21T11:00:00Z" None
    (fun i => ("j-" ++ string_of_Z (Z.of_nat i))%string) None None.

Definition fulfil_now : FulfilEnv := mkFulfilEnv None None.

(** A store holding one pending sale of 2 Keto Molde. *)
Definition pending_db : Db :=
  mkDb [mkProduct "p-molde" "Keto Molde" 6900 4050 18; ketoRedondito]
    [mkSaleRow "s-1" "Ana" not_fulfilled 13800 "2025-08-21T10:00:00Z"]
    [mkSaleItemRow "i-0" "s-1" "p-molde" 2 6900 13800].

Definition pending_world : World := mkWorld loaded_state pending_db [].

(** [UPDATE sales SET status = 'fulfilled' WHERE id = saleId], on one row. *)
Definition fulfil_row (saleId : string) (x : SaleRow) : SaleRow :=
  if String.eqb (sr_id x) saleId then set_status x fulfilled else x.

(** A sale that exists before and after a step has changed status. *)
Definition status_changed (before after : option Status) : bool :=
  match before, after with
  | Some x, Some y => negb (Status_eqb x y)
  | _, _ => false
  end.

(** How many times the status of sale [id] changes along a run. *)
Fixpoint status_changes (id : string) (actions : list Action) (w : World) : nat :=
  match actions with
  | [] => 0
  | a :: rest =>
      ((if status_changed (sale_status id (w_db w)) (sale_status id (w_db (step a w)))
        then 1 else 0)
       + status_changes id rest (step a w))%nat
  end.

(** * Further code and notions *)



Definition is_nan (q : jsnum) : bool :=
  match q with
  | JNum _ => false
  | JNaN => true
  end.


(** Every character of the string is white space. *)
Fixpoint all_whitespace (s : string) : bool :=
  match s with
  | EmptyString => true
  | String c rest => is_whitespace c && all_whitespace rest
  end.

(** ** The store's operations and what they keep *)

(** The writes the component can ask of the store. *)
Inductive StoreOp : Type :=
| OpInsertSale (fault : option string) (id now : string) (payload : SaleInsert)
| OpInsertSaleItems (fault : option string) (gen : nat -> string)
    (rows : list SaleItemInsert)
| OpUpdateSaleStatus (fault : option string) (saleId : string) (status : Status).

Definition apply_op (db : Db) (op : StoreOp) : Db :=
  match op with
  | OpInsertSale fault id now payload => fst (insert_sale fault id now payload db)
  | OpInsertSaleItems fault gen rows => fst (insert_sale_items fault gen rows db)
  | OpUpdateSaleStatus fault saleId status =>
      fst (update_sale_status fault saleId status db)
  end.

(** [REFERENCES sales(id)] and [REFERENCES products(id)] on [sale_items]. *)
Definition foreign_keys_hold (db : Db) : Prop :=
  Forall (fun r => has_id sr_id (ir_sale_id r) (db_sales db) = true
                   /\ has_id p_id (ir_product_id r) (db_products db) = true)
    (db_sale_items db).

(** [PRIMARY KEY] on the three tables. *)
Definition primary_keys_hold (db : Db) : Prop :=
  NoDup (map p_id (db_products db))
  /\ NoDup (map sr_id (db_sales db))
  /\ NoDup (map ir_id (db_sale_items db)).

Definition same_product_but_stock (a b : Product) : Prop :=
  p_id a = p_id b /\ p_name a = p_name b /\ p_price a = p_price b /\ p_cost a = p_cost b.

Definition same_sale_but_status (a b : SaleRow) : Prop :=
  sr_id a = sr_id b /\ sr_customer_name a = sr_customer_name b
  /\ sr_total_amount a = sr_total_amount b /\ sr_sale_date a = sr_sale_date b.

(** For each product, in table order: its stock plus the quantity its line
    items hold. *)
Definition stock_and_sold (db : Db) : list Z :=
  map (fun p => p_stock p + sold (db_sale_items db) (p_id p)) (db_products db).

(** What the store became is what it was, up to stocks, statuses, new
    sales and new line items. *)
Definition evolves (db db' : Db) : Prop :=
  Forall2 same_product_but_stock (db_products db) (db_products db')
  /\ stock_and_sold db' = stock_and_sold db
  /\ (exists kept new_sales,
         db_sales db' = kept ++ new_sales
         /\ Forall2 same_sale_but_status (db_sales db) kept)
  /\ (exists new_items, db_sale_items db' = db_sale_items db ++ new_items).

(** The quantity the cart holds of product [id]. *)
Definition cart_units (c : list CartItem) (id : string) : jsnum :=
  jsum (map ci_quantity (filter (fun item => String.eqb (ci_product_id item) id) c)).

(** The row stored for a cart entry of the state [st], under sale [saleId]. *)
Definition stored_for (st : State) (saleId : string)
    (entry : CartItem) (row : SaleItemRow) : Prop :=
  ir_sale_id row = saleId
  /\ ir_product_id row = ci_product_id entry
  /\ JNum (ir_quantity row) = ci_quantity entry
  /\ ir_unit_price row = current_price st entry
  /\ ir_subtotal row = ir_unit_price row * ir_quantity row.

(** A line item of the snapshot, as [fetchSales] builds it from its row. *)
Definition item_of_row (db : Db) (r : SaleItemRow) : SaleItem :=
  mkSaleItem (ir_id r) (ir_sale_id r) (ir_product_id r) (ir_quantity r)
    (ir_unit_price r) (ir_subtotal r)
    (option_map p_name (find_product (db_products db) (ir_product_id r))).

(** ** The earlier component: one product per sale

    [src/components/SalesTracker.tsx] and the first migrations: a sale names
    one product and a quantity, the stock trigger is on [sales], and there
    is no cart, customer or status. *)

Module Legacy.

Record Sale : Type := mkSale {
  id : string;
  product_id : string;
  quantity : Z;
  unit_price : Z;
  total_amount : Z;
  sale_date : string;
  products_name : string
}.

Definition calculateMetrics (salesData : list Sale) (productsData : list Product)
    : Metrics :=
  let totalSales := Z.of_nat (List.length salesData) in
  let totalRevenue := fold_left (fun sum sale => sum + total_amount sale) salesData 0 in
  let totalUnits := fold_left (fun sum sale => sum + quantity sale) salesData 0 in
  let totalProfit :=
    fold_left
      (fun sum sale =>
         match find_product productsData (product_id sale) with
         | Some product =>
             let saleProfit := (unit_price sale - p_cost product) * quantity sale in
             sum + saleProfit
         | None => sum
         end) salesData 0 in
  mkMetrics totalSales totalRevenue totalProfit totalUnits.

Record State : Type := mkState {
  products : list Product;
  sales : list Sale;
  metrics : Metrics;
  selectedProduct : string;
  quantity_field : string;
  isSubmitting : bool;
  toasts : list Toast
}.

Definition toast (t : Toast) (st : State) : State :=
  mkState (products st) (sales st) (metrics st) (selectedProduct st)
    (quantity_field st) (isSubmitting st) (toasts st ++ [t]).

Definition setProducts (ps : list Product) (st : State) : State :=
  mkState ps (sales st) (calculateMetrics (sales st) ps) (selectedProduct st)
    (quantity_field st) (isSubmitting st) (toasts st).

Definition setSales (ss : list Sale) (st : State) : State :=
  mkState (products st) ss (calculateMetrics ss (products st)) (selectedProduct st)
    (quantity_field st) (isSubmitting st) (toasts st).

Definition setSelectedProduct (s : string) (st : State) : State :=
  mkState (products st) (sales st) (metrics st) s
    (quantity_field st) (isSubmitting st) (toasts st).

Definition setQuantity (q : string) (st : State) : State :=
  mkState (products st) (sales st) (metrics st) (selectedProduct st)
    q (isSubmitting st) (toasts st).

Definition setIsSubmitting (b : bool) (st : State) : State :=
  mkState (products st) (sales st) (metrics st) (selectedProduct st)
    (quantity_field st) b (toasts st).

(** The store of the first migration. *)
Record SaleRow : Type := mkSaleRow {
  sr_id : string;
  sr_product_id : string;
  sr_quantity : Z;
  sr_unit_price : Z;
  sr_total_amount : Z;
  sr_sale_date : string
}.

Record Db : Type := mkDb {
  db_products : list Product;
  db_sales : list SaleRow
}.

Record SaleInsert : Type := mkSaleInsert {
  ins_product_id : string;
  ins_quantity : jsnum;
  ins_unit_price : Z;
  ins_total_amount : jsnum
}.

(** The trigger function [update_stock_on_sale], run for [NEW] on the
    [products] table. *)
Definition update_stock_on_sale (NEW : SaleRow) (ps : list Product)
    : result (list Product) :=
  let ps' :=
    map (fun p =>
           if String.eqb (p_id p) (sr_product_id NEW)
           then set_stock p (p_stock p - sr_quantity NEW)
           else p) ps in
  match filter (fun p => String.eqb (p_id p) (sr_product_id NEW)) ps' with
  | [] => Ok ps'
  | [p] =>
      if p_stock p <? 0 then Err (Raised "Insufficient stock for product")
      else Ok ps'
  | _ => Err (Raised "more than one row returned by a subquery used as an expression")
  end.

(** Inserting one sale: the [NOT NULL] columns, the primary key, the
    foreign key to [products], then the trigger. *)
Definition insert_sale (fault : option string) (new_id now : string)
    (payload : SaleInsert) (db : Db) : Db * result unit :=
  match fault with
  | Some m => (db, Err (NetworkError m))
  | None =>
      match ins_quantity payload, ins_total_amount payload with
      | JNaN, _ => (db, Err (NotNullViolation "quantity"))
      | _, JNaN => (db, Err (NotNullViolation "total_amount"))
      | JNum q, JNum total =>
          if has_id sr_id new_id (db_sales db) then (db, Err (UniqueViolation "sales"))
          else if negb (has_id p_id (ins_product_id payload) (db_products db))
          then (db, Err (ForeignKeyViolation "product_id"))
          else
            let row := mkSaleRow new_id (ins_product_id payload) q
                         (ins_unit_price payload) total now in
            match update_stock_on_sale row (db_products db) with
            | Err e => (db, Err e)
            | Ok ps' => (mkDb ps' (db_sales db ++ [row]), Ok tt)
            end
      end
  end.

(** [fetch-sales] with [products!inner(name)]: the sales whose product
    exists, each with its product's name, newest first. *)
Definition select_sales (fault : option string) (db : Db) : result (list Sale) :=
  match fault with
  | Some m => Err (NetworkError m)
  | None =>
      Ok (order_by (fun a b => String.leb (sale_date b) (sale_date a))
            (flat_map
               (fun r =>
                  match find_product (db_products db) (sr_product_id r) with
                  | Some p =>
                      [mkSale (sr_id r) (sr_product_id r) (sr_quantity r)
                         (sr_unit_price r) (sr_total_amount r) (sr_sale_date r)
                         (p_name p)]
                  | None => []
                  end)
               (db_sales db)))
  end.

Definition select_products (fault : option string) (db : Db) : result (list Product) :=
  match fault with
  | Some m => Err (NetworkError m)
  | None => Ok (order_by (fun a b => String.leb (p_name a) (p_name b)) (db_products db))
  end.

Record World : Type := mkWorld {
  w_ui : State;
  w_db : Db
}.

Definition with_ui (f : State -> State) (w : World) : World :=
  mkWorld (f (w_ui w)) (w_db w).

Definition fetchProducts (fault : option string) (w : World) : World :=
  match select_products fault (w_db w) with
  | Ok data => with_ui (setProducts data) w
  | Err _ => with_ui (toast (mkToast "Error" "Failed to fetch products" destructive)) w
  end.

Definition fetchSales (fault : option string) (w : World) : World :=
  match select_sales fault (w_db w) with
  | Ok data => with_ui (setSales data) w
  | Err _ => with_ui (toast (mkToast "Error" "Failed to fetch sales" destructive)) w
  end.

Record SubmitEnv : Type := mkSubmitEnv {
  sale_fault : option string;
  sale_uuid : string;
  sale_now : string;
  products_fault : option string;
  sales_fault : option string
}.

Definition handleSaleSubmit (env : SubmitEnv) (w : World) : World :=
  let st := w_ui w in
  if String.eqb (selectedProduct st) "" || String.eqb (quantity_field st) "" then
    with_ui (toast (mkToast "Error" "Please select a product and enter quantity"
                      destructive)) w
  else
    match find_product (products st) (selectedProduct st) with
    | None =>
        with_ui (toast (mkToast "Error" "Selected product not found" destructive)) w
    | Some product =>
        let qty := parseInt (quantity_field st) in
        if jle qty (JNum 0) || jgt qty (JNum (p_stock product)) then
          with_ui (toast (mkToast "Error"
                            ("Invalid quantity. Available stock: "
                             ++ string_of_Z (p_stock product))%string
                            destructive)) w
        else
          let payload := mkSaleInsert (selectedProduct st) qty (p_price product)
                           (jmul (JNum (p_price product)) qty) in
          let '(db1, r) :=
            insert_sale (sale_fault env) (sale_uuid env) (sale_now env) payload (w_db w) in
          let w1 := mkWorld (setIsSubmitting true st) db1 in
          match r with
          | Err error =>
              with_ui (setIsSubmitting false)
                (with_ui (toast (mkToast "Error"
                                   (or_else (error_message error) "Failed to record sale")
                                   destructive)) w1)
          | Ok _ =>
              let shown :=
                match qty with
                | JNum q => string_of_Z q
                | JNaN => "NaN"
                end in
              let w2 :=
                with_ui (toast (mkToast "Success!"
                                  ("Sale recorded: " ++ shown ++ " x " ++ p_name product)%string
                                  default_variant)) w1 in
              let w3 := with_ui (setQuantity "") (with_ui (setSelectedProduct "") w2) in
              fetchSales (sales_fault env)
                (fetchProducts (products_fault env)
                   (with_ui (setIsSubmitting false) w3))
          end
    end.

End Legacy.

(** An earlier sale in the later data model: a sale with one line item. *)
Definition as_order (s : Legacy.Sale) : Sale :=
  mkSale (Legacy.id s) "" fulfilled (Legacy.total_amount s) (Legacy.sale_date s)
    [mkSaleItem (Legacy.id s) (Legacy.id s) (Legacy.product_id s) (Legacy.quantity s)
       (Legacy.unit_price s) (Legacy.total_amount s) (Some (Legacy.products_name s))].





(** The order of [order_world] when the store has one Keto Molde left and
    the snapshot still shows twenty. *)
Definition stale_world : World :=
  mkWorld order_state
    (mkDb [mkProduct "p-molde" "Keto Molde" 6900 4050 1; ketoRedondito] [] []) [].

(** The sale that [calm] creates for that order. *)
Definition order_sale : SaleRow :=
  mkSaleRow "s-1" "Ana" not_fulfilled 20700 "2025-08-21T10:00:00Z".



(** * Properties *)

(** ** Shared facts about lookups *)

Lemma find_product_some (ps : list Product) (id : string) (p : Product) :
  find_product ps id = Some p -> In p ps /\ p_id p = id.
Proof.
  unfold find_product. intros H. apply find_some in H.
  destruct H as [Hin Heq]. split; [assumption | now apply String.eqb_eq].
Qed.

Lemma has_id_find_product (ps : list Product) (id : string) :
  has_id p_id id ps = true <-> exists p, find_product ps id = Some p.
Proof.
  unfold has_id, find_product. induction ps as [|a ps IH]; simpl.
  - split; [discriminate | intros [p Hp]; discriminate].
  - destruct (String.eqb (p_id a) id); simpl.
    + split; [intros _; now exists a | reflexivity].
    + exact IH.
Qed.

Lemma has_id_false_find_product (ps : list Product) (id : string) :
  has_id p_id id ps = false <-> find_product ps id = None.
Proof.
  unfold has_id, find_product. induction ps as [|a ps IH]; simpl.
  - split; reflexivity.
  - destruct (String.eqb (p_id a) id); simpl.
    + split; discriminate.
    + exact IH.
Qed.

(** ** Metrics *)

Lemma Zsum_app (l1 l2 : list Z) : Zsum (l1 ++ l2) = Zsum l1 + Zsum l2.
Proof. induction l1 as [|x l1 IH]; simpl; [reflexivity | rewrite IH; lia]. Qed.

Lemma revenue_fold (S : list Sale) (acc : Z) :
  fold_left (fun sum sale => sum + s_total_amount sale) S acc
  = acc + spec_totalRevenue S.
Proof.
  unfold spec_totalRevenue. revert acc.
  induction S as [|s S IH]; intros acc; simpl; [lia | rewrite IH; lia].
Qed.

Lemma items_fold (P : list Product) (items : list SaleItem) (units profit : Z) :
  fold_left (metrics_item_step P) items (units, profit)
  = (units + Zsum (map si_quantity items),
     profit + Zsum (map (fun item =>
                           si_quantity item * (si_unit_price item - current_cost P item))
                      (filter (occurs_in_products P) items))).
Proof.
  revert units profit.
  induction items as [|item items IH]; intros units profit; simpl.
  - f_equal; lia.
  - destruct (find_product P (si_product_id item)) as [p|] eqn:Hfind.
    + assert (Hocc : occurs_in_products P item = true)
        by (apply has_id_find_product; now exists p).
      rewrite Hocc, IH. cbn [map Zsum fold_right].
      replace (current_cost P item) with (p_cost p)
        by (unfold current_cost; now rewrite Hfind).
      unfold Zsum. f_equal; lia.
    + assert (Hocc : occurs_in_products P item = false)
        by (now apply has_id_false_find_product).
      rewrite Hocc, IH. f_equal; lia.
Qed.

Lemma sales_fold (P : list Product) (S : list Sale) (units profit : Z) :
  fold_left (metrics_sale_step P) S (units, profit)
  = (units + spec_totalUnits S, profit + spec_totalProfit P S).
Proof.
  unfold spec_totalUnits, spec_totalProfit, all_items. revert units profit.
  induction S as [|s S IH]; intros units profit; simpl.
  - f_equal; lia.
  - unfold metrics_sale_step at 2. rewrite items_fold, IH.
    rewrite filter_app, !map_app, !Zsum_app. f_equal; lia.
Qed.

Lemma profit_by_contribution (P : list Product) (items : list SaleItem) :
  Zsum (map (fun item => si_quantity item * (si_unit_price item - current_cost P item))
          (filter (occurs_in_products P) items))
  = Zsum (map (profit_contribution P) items).
Proof.
  induction items as [|item items IH]; simpl; [reflexivity|].
  unfold profit_contribution at 1.
  destruct (occurs_in_products P item); simpl; rewrite IH; reflexivity.
Qed.

Lemma calculateMetrics_eq (S : list Sale) (P : list Product) :
  calculateMetrics S P
  = mkMetrics (Z.of_nat (List.length S)) (spec_totalRevenue S)
      (spec_totalProfit P S) (spec_totalUnits S).
Proof.
  unfold calculateMetrics. rewrite revenue_fold, sales_fold. reflexivity.
Qed.


(** ** Cart *)

Lemma parseInt_number_nonempty (s : string) (q : Z) :
  parseInt s = JNum q -> s <> "".
Proof. intros H ->. discriminate H. Qed.

Lemma find_cart_item_none (c : list CartItem) (id : string) :
  find_cart_item c id = None <-> ~ In id (cart_ids c).
Proof.
  unfold find_cart_item, cart_ids. induction c as [|a c IH]; simpl.
  - split; [intros _ [] | reflexivity].
  - destruct (String.eqb_spec (ci_product_id a) id) as [Heq|Hne].
    + split; [discriminate | intros H; exfalso; apply H; now left].
    + rewrite IH. split; [intros H [H1|H1]; [now apply Hne | now apply H] | intros H H1; apply H; now right].
  Qed.

Lemma merged_cart_ids (c : list CartItem) (id : string) (qty : jsnum) :
  cart_ids (merged_cart c id qty) = cart_ids c.
Proof.
  unfold cart_ids, merged_cart. rewrite map_map. apply map_ext.
  intros item. now destruct (String.eqb (ci_product_id item) id).
Qed.

(** What [addToCart] does once its two guards are passed. *)
Lemma addToCart_accepts (st : State) (p : Product) (qty : jsnum) :
  selectedProduct st <> "" -> quantity st <> "" ->
  find_product (products st) (selectedProduct st) = Some p ->
  parseInt (quantity st) = qty ->
  jle qty (JNum 0) || jgt qty (JNum (p_stock p)) = false ->
  addToCart st =
  setQuantity "" (setSelectedProduct ""
    (setCart (match find_cart_item (cart st) (selectedProduct st) with
              | Some _ => merged_cart (cart st) (selectedProduct st) qty
              | None => cart st ++ [mkCartItem (selectedProduct st) qty]
              end) st)).
Proof.
  intros Hsel Hq Hfind Hparse Hok. unfold addToCart.
  apply String.eqb_neq in Hsel, Hq. rewrite Hsel, Hq, Hfind, Hparse, Hok.
  reflexivity.
Qed.

(** In every case the cart after [addToCart] is the old cart, the old cart
    with one merged entry, or the old cart with a new entry for a product
    it did not hold. *)
Lemma addToCart_cart (st : State) :
  cart (addToCart st) = cart st
  \/ (exists qty, cart (addToCart st) = merged_cart (cart st) (selectedProduct st) qty)
  \/ (exists qty, ~ In (selectedProduct st) (cart_ids (cart st))
                  /\ cart (addToCart st) = cart st ++ [mkCartItem (selectedProduct st) qty]).
Proof.
  unfold addToCart.
  destruct (String.eqb (selectedProduct st) "" || String.eqb (quantity st) "");
    [now left|].
  destruct (find_product (products st) (selectedProduct st)) as [p|]; [|now left].
  destruct (jle _ _ || jgt _ _); [now left|].
  destruct (find_cart_item (cart st) (selectedProduct st)) eqn:Hfind; simpl.
  - right; left. eexists. reflexivity.
  - right; right. eexists. split; [now apply find_cart_item_none | reflexivity].
Qed.

Lemma addToCart_NoDup (st : State) :
  NoDup (cart_ids (cart st)) -> NoDup (cart_ids (cart (addToCart st))).
Proof.
  intros Hnd.
  destruct (addToCart_cart st) as [H | [[qty H] | [qty [Hnin H]]]]; rewrite H.
  - assumption.
  - now rewrite merged_cart_ids.
  - unfold cart_ids in *. rewrite map_app. simpl.
    apply NoDup_app; [assumption | constructor; [intros [] | constructor] |].
    intros x Hx [Hx'|[]]. subst x. now apply Hnin.
Qed.

Lemma removeFromCart_cart (productId : string) (st : State) :
  cart (removeFromCart productId st)
  = filter (fun item => negb (String.eqb (ci_product_id item) productId)) (cart st).
Proof. reflexivity. Qed.

Lemma filter_ids_NoDup (f : CartItem -> bool) (c : list CartItem) :
  NoDup (cart_ids c) -> NoDup (cart_ids (filter f c)).
Proof.
  unfold cart_ids. induction c as [|a c IH]; simpl; intros Hnd; [constructor|].
  inversion Hnd as [|x l Hnin Hnd']; subst.
  destruct (f a); simpl; [constructor|]; auto.
  intros Hin. apply Hnin. apply in_map_iff in Hin. destruct Hin as [y [Hy Hin]].
  apply filter_In in Hin. apply in_map_iff. exists y. tauto.
Qed.

(** C3: for a product [p] of the current product list, selected in the
    form, with stock [s], and a requested quantity [q] (the number the
    quantity field parses to): if 0 < q <= s, [addToCart] appends the entry
    (p, q) when the cart has no entry for [p], and otherwise adds [q] to the
    quantity of the existing entry, the cart keeping its length and its
    product ids; if q <= 0 or q > s, a destructive toast is shown and the
    cart is unchanged.  Adding 3 and then 2 of a product with stock at least
    5 to an empty cart leaves the single entry (p, 5). *)
Theorem addToCart_spec (st : State) (p : Product) (q : Z)
    (Hsel : selectedProduct st = p_id p)
    (Hid : p_id p <> "")
    (Hfind : find_product (products st) (p_id p) = Some p)
    (Hqty : parseInt (quantity st) = JNum q) :
  (0 < q <= p_stock p ->
     toasts (addToCart st) = toasts st
     /\ (find_cart_item (cart st) (p_id p) = None ->
           cart (addToCart st) = cart st ++ [mkCartItem (p_id p) (JNum q)])
     /\ (forall e, find_cart_item (cart st) (p_id p) = Some e ->
           cart (addToCart st) = merged_cart (cart st) (p_id p) (JNum q)
           /\ List.length (cart (addToCart st)) = List.length (cart st)
           /\ cart_ids (cart (addToCart st)) = cart_ids (cart st)))
  /\ (q <= 0 \/ p_stock p < q ->
        cart (addToCart st) = cart st
        /\ toasts (addToCart st)
           = toasts st
             ++ [mkToast "Error"
                   ("Invalid quantity. Available stock: " ++ string_of_Z (p_stock p))%string
                   destructive])
  /\ (cart st = [] -> q = 3 -> 5 <= p_stock p ->
        forall again : string, parseInt again = JNum 2 ->
        cart (addToCart (setQuantity again (setSelectedProduct (p_id p) (addToCart st))))
        = [mkCartItem (p_id p) (JNum 5)]).
Proof.
  assert (Hq : quantity st <> "") by (eapply parseInt_number_nonempty; eassumption).
  assert (Hsel' : selectedProduct st <> "") by (now rewrite Hsel).
  assert (Hacc : forall st0 q0,
            selectedProduct st0 = p_id p ->
            find_product (products st0) (p_id p) = Some p ->
            parseInt (quantity st0) = JNum q0 ->
            0 < q0 <= p_stock p ->
            addToCart st0 =
            setQuantity "" (setSelectedProduct ""
              (setCart (match find_cart_item (cart st0) (p_id p) with
                        | Some _ => merged_cart (cart st0) (p_id p) (JNum q0)
                        | None => cart st0 ++ [mkCartItem (p_id p) (JNum q0)]
                        end) st0))).
  { intros st0 q0 Hs Hf Hp Hr.
    rewrite (addToCart_accepts st0 p (JNum q0)); rewrite ?Hs; auto.
    - eapply parseInt_number_nonempty; eassumption.
    - simpl. apply orb_false_iff. split; [apply Z.leb_gt | apply Z.ltb_ge]; lia. }
  split; [|split].
  - intros Hrange. rewrite (Hacc st q Hsel Hfind Hqty Hrange). simpl.
    split; [reflexivity|]. split.
    + intros Hnone. now rewrite Hnone.
    + intros e Hsome. rewrite Hsome.
      split; [reflexivity|]. split.
      * unfold merged_cart. apply length_map.
      * apply merged_cart_ids.
  - intros Hbad. unfold addToCart.
    apply String.eqb_neq in Hsel', Hq. rewrite Hsel', Hq, Hsel, Hfind, Hqty. simpl.
    replace ((q <=? 0) || (p_stock p <? q)) with true.
    + split; reflexivity.
    + symmetry. apply orb_true_iff.
      destruct Hbad; [left; apply Z.leb_le | right; apply Z.ltb_lt]; lia.
  - intros Hcart -> Hstock again Hagain.
    rewrite (Hacc st 3 Hsel Hfind Hqty) by lia.
    rewrite Hcart. simpl.
    rewrite (Hacc _ 2); simpl; auto; try lia.
    unfold find_cart_item. simpl. rewrite String.eqb_refl. reflexivity.
Qed.

(** ** Frames of the handlers *)

Lemma db_fetchProducts (fault : option string) (w : World) :
  w_db (fetchProducts fault w) = w_db w.
Proof. unfold fetchProducts. now destruct (select_products fault (w_db w)). Qed.

Lemma cart_fetchProducts (fault : option string) (w : World) :
  cart (w_ui (fetchProducts fault w)) = cart (w_ui w).
Proof. unfold fetchProducts. now destruct (select_products fault (w_db w)). Qed.

Lemma customerName_fetchProducts (fault : option string) (w : World) :
  customerName (w_ui (fetchProducts fault w)) = customerName (w_ui w).
Proof. unfold fetchProducts. now destruct (select_products fault (w_db w)). Qed.

Lemma db_fetchSales (fault : option string) (w : World) :
  w_db (fetchSales fault w) = w_db w.
Proof. unfold fetchSales. now destruct (select_sales fault (w_db w)). Qed.

Lemma cart_fetchSales (fault : option string) (w : World) :
  cart (w_ui (fetchSales fault w)) = cart (w_ui w).
Proof. unfold fetchSales. now destruct (select_sales fault (w_db w)). Qed.

Lemma customerName_fetchSales (fault : option string) (w : World) :
  customerName (w_ui (fetchSales fault w)) = customerName (w_ui w).
Proof. unfold fetchSales. now destruct (select_sales fault (w_db w)). Qed.

Lemma products_fetchSales (fault : option string) (w : World) :
  products (w_ui (fetchSales fault w)) = products (w_ui w).
Proof. unfold fetchSales. now destruct (select_sales fault (w_db w)). Qed.

Lemma requests_fetchProducts (fault : option string) (w : World) :
  w_requests (fetchProducts fault w) = w_requests w ++ [ReqSelectProducts].
Proof. unfold fetchProducts. now destruct (select_products fault (w_db w)). Qed.

Lemma requests_fetchSales (fault : option string) (w : World) :
  w_requests (fetchSales fault w) = w_requests w ++ [ReqSelectSales].
Proof. unfold fetchSales. now destruct (select_sales fault (w_db w)). Qed.

Ltac frame :=
  repeat first
    [ rewrite db_fetchProducts | rewrite cart_fetchProducts
    | rewrite customerName_fetchProducts | rewrite db_fetchSales
    | rewrite cart_fetchSales | rewrite customerName_fetchSales
    | rewrite products_fetchSales | rewrite requests_fetchProducts
    | rewrite requests_fetchSales ].

(** [handleSaleSubmit] when a precondition fails. *)
Lemma handleSaleSubmit_rejected (env : SubmitEnv) (w : World) :
  trim (customerName (w_ui w)) = "" \/ cart (w_ui w) = [] ->
  exists message,
    handleSaleSubmit env w = with_ui (toast (mkToast "Error" message destructive)) w.
Proof.
  intros H. unfold handleSaleSubmit.
  destruct (String.eqb_spec (trim (customerName (w_ui w))) "") as [He|Hne].
  - eexists; reflexivity.
  - destruct H as [H|H]; [contradiction|]. rewrite H. simpl. eexists; reflexivity.
Qed.

(** ** What the store does with the inserts *)

Lemma insert_sale_items_rejected (fault : option string) (gen : nat -> string)
    (rows : list SaleItemInsert) (db : Db) (e : ServiceError) :
  snd (insert_sale_items fault gen rows db) = Err e ->
  fst (insert_sale_items fault gen rows db) = db.
Proof.
  unfold insert_sale_items. destruct fault; [reflexivity|].
  destruct (insert_rows gen 0 rows (db_sale_items db)); [|reflexivity].
  destruct (after_insert_rows _ _ _); [discriminate | reflexivity].
Qed.

Lemma insert_sale_created (fault : option string) (id now : string)
    (payload : SaleInsert) (db : Db) (row : SaleRow) :
  snd (insert_sale fault id now payload db) = Ok row ->
  fst (insert_sale fault id now payload db)
  = mkDb (db_products db) (db_sales db ++ [row]) (db_sale_items db)
  /\ sr_id row = id
  /\ sr_customer_name row = ins_customer_name payload
  /\ sr_status row = ins_status payload
  /\ JNum (sr_total_amount row) = ins_total_amount payload
  /\ has_id sr_id id (db_sales db) = false.
Proof.
  unfold insert_sale. destruct fault; [discriminate|].
  destruct (ins_total_amount payload) as [total|]; [|discriminate].
  destruct (has_id sr_id id (db_sales db)) eqn:Hid; [discriminate|]. simpl.
  intros H. injection H as <-. simpl. repeat split; reflexivity.
Qed.

Lemma insert_sale_items_sales (fault : option string) (gen : nat -> string)
    (rows : list SaleItemInsert) (db : Db) :
  db_sales (fst (insert_sale_items fault gen rows db)) = db_sales db.
Proof.
  unfold insert_sale_items. destruct fault; [reflexivity|].
  destruct (insert_rows gen 0 rows (db_sale_items db)); [|reflexivity].
  destruct (after_insert_rows _ _ _); reflexivity.
Qed.

Lemma insert_rows_rows (gen : nat -> string) (rows : list SaleItemInsert) :
  forall (i : nat) (table new_rows : list SaleItemRow),
    insert_rows gen i rows table = Ok new_rows ->
    Forall2 (fun r row => exists id, sale_item_row id r = Ok row) rows new_rows.
Proof.
  induction rows as [|r rows IH]; intros i table new_rows; simpl.
  - intros H. injection H as <-. constructor.
  - destruct (sale_item_row (gen i) r) as [row|e] eqn:Hrow; [|discriminate].
    destruct (has_id ir_id (ir_id row) table); [discriminate|].
    destruct (insert_rows gen (S i) rows (table ++ [row])) as [rest|e] eqn:Hrest;
      [|discriminate].
    intros H. injection H as <-. constructor; [now exists (gen i) | eauto].
Qed.




Lemma jadd_assoc (a b c : jsnum) : jadd (jadd a b) c = jadd a (jadd b c).
Proof. destruct a, b, c; simpl; try reflexivity. f_equal. lia. Qed.

Lemma jadd_0_l (a : jsnum) : jadd (JNum 0) a = a.
Proof. destruct a; reflexivity. Qed.

Lemma jadd_0_r (a : jsnum) : jadd a (JNum 0) = a.
Proof. destruct a; simpl; [f_equal; lia | reflexivity]. Qed.

Lemma fold_left_jadd {A : Type} (f : A -> jsnum) (l : list A) (acc : jsnum) :
  fold_left (fun total x => jadd total (f x)) l acc
  = jadd acc (fold_right (fun x rest => jadd (f x) rest) (JNum 0) l).
Proof.
  revert acc. induction l as [|x l IH]; intros acc; simpl.
  - now rewrite jadd_0_r.
  - now rewrite IH, jadd_assoc.
Qed.

(** ** Sale submission *)

(** C5: when the customer name is empty after trimming, or the cart is
    empty, [handleSaleSubmit] returns before any call to the data service:
    no request is made (so no sale or line-item insert), the store is as it
    was, one destructive toast is shown, and no cell of the component's
    state changes (cart, customer name, product and sale snapshots, and the
    rest). *)
Theorem handleSaleSubmit_validation (env : SubmitEnv) (w : World)
    (Hinvalid : trim (customerName (w_ui w)) = "" \/ cart (w_ui w) = []) :
  let w' := handleSaleSubmit env w in
  w_requests w' = w_requests w
  /\ w_db w' = w_db w
  /\ (exists message,
         toasts (w_ui w') = toasts (w_ui w) ++ [mkToast "Error" message destructive])
  /\ cart (w_ui w') = cart (w_ui w)
  /\ customerName (w_ui w') = customerName (w_ui w)
  /\ products (w_ui w') = products (w_ui w)
  /\ sales (w_ui w') = sales (w_ui w)
  /\ metrics (w_ui w') = metrics (w_ui w)
  /\ selectedProduct (w_ui w') = selectedProduct (w_ui w)
  /\ quantity (w_ui w') = quantity (w_ui w)
  /\ isSubmitting (w_ui w') = isSubmitting (w_ui w).
Proof.
  destruct (handleSaleSubmit_rejected env w Hinvalid) as [message Heq].
  cbv zeta. rewrite Heq. simpl.
  repeat split; try reflexivity. now exists message.
Qed.

(** *** With the preconditions met *)

Section Submission.

Variable env : SubmitEnv.
Variable w : World.
Hypothesis Hname : trim (customerName (w_ui w)) <> "".
Hypothesis Hcart : cart (w_ui w) <> [].

(** [handleSaleSubmit] in terms of its calls and their results. *)
Lemma handleSaleSubmit_started :
  handleSaleSubmit env w =
  let st := w_ui w in
  let w0 := with_ui (setIsSubmitting true) w in
  let w1 := request (ReqInsertSale (sale_payload st)) (fst (sale_step env w)) w0 in
  match snd (sale_step env w) with
  | Err saleError => with_ui (setIsSubmitting false) (submit_failed saleError w1)
  | Ok saleData =>
      let w2 := request (ReqInsertSaleItems (saleItems_of_cart st saleData))
                  (fst (items_step env w saleData)) w1 in
      match snd (items_step env w saleData) with
      | Err itemsError => with_ui (setIsSubmitting false) (submit_failed itemsError w2)
      | Ok _ =>
          fetchSales (sales_fault env)
            (fetchProducts (products_fault env)
               (with_ui (setIsSubmitting false)
                  (with_ui (setCart [])
                     (with_ui (setCustomerName "")
                        (with_ui (toast (mkToast "Success!"
                                           ("Sale recorded for " ++ customerName st)%string
                                           default_variant)) w2)))))
      end
  end.
Proof.
  unfold handleSaleSubmit.
  rewrite (proj2 (String.eqb_neq _ _) Hname).
  assert (Hlen : Nat.eqb (List.length (cart (w_ui w))) 0 = false)
    by (destruct (cart (w_ui w)); [contradiction | reflexivity]).
  rewrite Hlen. cbv zeta.
  unfold items_step, sale_step, sale_payload. simpl w_db.
  destruct (insert_sale _ _ _ _ _) as [db1 [saleData|e]]; simpl; [|reflexivity].
  destruct (insert_sale_items _ _ _ _) as [db2 [u|e]]; reflexivity.
Qed.

(** C6: with the preconditions met, if the sale insert fails, or the sale
    insert succeeds and the line-items insert fails, [handleSaleSubmit]
    stops there (no further request), keeps the cart and the customer name
    as they were and shows a destructive toast with the failure's message;
    the cart and the customer name are cleared when both inserts succeed,
    and only then. *)
Theorem handleSaleSubmit_failure :
  let w' := handleSaleSubmit env w in
  let st := w_ui w in
  (forall saleError, snd (sale_step env w) = Err saleError ->
     cart (w_ui w') = cart st
     /\ customerName (w_ui w') = customerName st
     /\ w_requests w' = w_requests w ++ [ReqInsertSale (sale_payload st)]
     /\ toasts (w_ui w')
        = toasts st ++ [mkToast "Error"
                          (or_else (error_message saleError) "Failed to record sale")
                          destructive])
  /\ (forall saleData itemsError,
        snd (sale_step env w) = Ok saleData ->
        snd (items_step env w saleData) = Err itemsError ->
        cart (w_ui w') = cart st
        /\ customerName (w_ui w') = customerName st
        /\ w_requests w' = w_requests w
                           ++ [ReqInsertSale (sale_payload st);
                               ReqInsertSaleItems (saleItems_of_cart st saleData)]
        /\ toasts (w_ui w')
           = toasts st ++ [mkToast "Error"
                             (or_else (error_message itemsError) "Failed to record sale")
                             destructive]
        /\ w_db w' = fst (sale_step env w))
  /\ (both_inserts_succeed env w = true ->
        cart (w_ui w') = [] /\ customerName (w_ui w') = "")
  /\ (cart (w_ui w') <> cart st \/ customerName (w_ui w') <> customerName st ->
        both_inserts_succeed env w = true).
Proof.
  cbv zeta. rewrite handleSaleSubmit_started. cbv zeta.
  unfold both_inserts_succeed.
  destruct (snd (sale_step env w)) as [saleData|saleError] eqn:Hsale.
  - destruct (snd (items_step env w saleData)) as [u|itemsError] eqn:Hitems.
    + frame. simpl.
      split; [discriminate|]. split; [|split; [now split|reflexivity]].
      intros sd ie Hsd. injection Hsd as <-. rewrite Hitems. discriminate.
    + simpl. split; [discriminate|]. split; [|split; [discriminate|]].
      * intros sd ie Hsd. injection Hsd as <-. rewrite Hitems.
        intros He. injection He as <-.
        repeat split; try reflexivity.
        -- now rewrite <- app_assoc.
        -- unfold items_step in *. eapply insert_sale_items_rejected; eassumption.
      * intros [H|H]; now contradiction H.
  - simpl. split; [|split; [discriminate|split; [discriminate|]]].
    + intros e He. injection He as <-. repeat split; reflexivity.
    + intros [H|H]; now contradiction H.
Qed.


End Submission.

(** ** Cart entries whose product is gone *)

Lemma getCartTotal_resolvable (st : State) :
  getCartTotal st
  = jsum (map (fun item => jmul (JNum (current_price st item)) (ci_quantity item))
            (filter (resolvable st) (cart st))).
Proof.
  unfold getCartTotal. rewrite fold_left_jadd, jadd_0_l.
  unfold jsum, resolvable, current_price.
  induction (cart st) as [|item c IH]; cbn [fold_right filter map]; [reflexivity|].
  rewrite IH.
  destruct (find_product (products st) (ci_product_id item)) as [p|] eqn:Hfind.
  - assert (Hocc : has_id p_id (ci_product_id item) (products st) = true)
      by (apply has_id_find_product; now exists p).
    rewrite Hocc. cbn [fold_right map]. rewrite Hfind. reflexivity.
  - apply has_id_false_find_product in Hfind as Hocc. rewrite Hocc.
    apply jadd_0_l.
Qed.

(** A cart entry whose product is not in the list counts 0 in the total,
    and its line item has unit price 0 and subtotal 0 times its quantity:
    0 when the quantity is a number. *)
Lemma unresolved_entry_priced_zero (st : State) (saleData : SaleRow)
    (before after : list CartItem) (entry : CartItem) :
  cart st = before ++ entry :: after ->
  find_product (products st) (ci_product_id entry) = None ->
  getCartTotal st = getCartTotal (setCart (before ++ after) st)
  /\ exists line,
       nth_error (saleItems_of_cart st saleData) (List.length before) = Some line
       /\ ii_product_id line = ci_product_id entry
       /\ ii_unit_price line = 0
       /\ ii_subtotal line = jmul (JNum 0) (ci_quantity entry)
       /\ (forall q, ci_quantity entry = JNum q -> ii_subtotal line = JNum 0).
Proof.
  intros Hcart Hfind. split.
  - rewrite !getCartTotal_resolvable. simpl. rewrite Hcart.
    rewrite !filter_app. simpl.
    apply has_id_false_find_product in Hfind. unfold resolvable at 2. simpl.
    rewrite Hfind. reflexivity.
  - unfold saleItems_of_cart. rewrite Hcart, map_app. simpl.
    rewrite nth_error_app2; rewrite length_map; [|lia].
    rewrite Nat.sub_diag. simpl. rewrite Hfind.
    eexists. split; [reflexivity|]. simpl. repeat split.
    intros q ->. reflexivity.
Qed.

(** C9, at the input where it fails.  The quantity field holding ".5"
    parses to NaN, which passes both tests of [addToCart] and enters the
    cart.  Once the product is gone from the list, the entry counts 0 in
    the cart total, and its line item has unit price 0, but its subtotal
    is 0 * NaN = NaN, not 0; the store then refuses the line items. *)
Theorem unresolved_entry_nan_subtotal :
  let typed := setQuantity ".5" (setSelectedProduct "p-molde" loaded_state) in
  let st := setCustomerName "Ana" (setProducts [ketoRedondito] (addToCart typed)) in
  let w := mkWorld st (mkDb [ketoRedondito] [] []) [] in
  cart st = [mkCartItem "p-molde" JNaN]
  /\ find_product (products st) "p-molde" = None
  /\ getCartTotal st = JNum 0
  /\ w_requests (handleSaleSubmit calm w)
     = [ReqInsertSale (mkSaleInsert "Ana" (JNum 0) not_fulfilled);
        ReqInsertSaleItems [mkSaleItemInsert "s-1" "p-molde" JNaN 0 JNaN]]
  /\ snd (insert_sale_items None (item_uuid calm)
            [mkSaleItemInsert "s-1" "p-molde" JNaN 0 JNaN]
            (mkDb [ketoRedondito]
               [mkSaleRow "s-1" "Ana" not_fulfilled 0 (sale_now calm)] []))
     = Err (NotNullViolation "quantity")
  /\ cart (w_ui (handleSaleSubmit calm w)) = [mkCartItem "p-molde" JNaN]
  /\ db_sales (w_db (handleSaleSubmit calm w))
     = [mkSaleRow "s-1" "Ana" not_fulfilled 0 (sale_now calm)]
  /\ db_sale_items (w_db (handleSaleSubmit calm w)) = [].
Proof. vm_compute. repeat split. Qed.

(** ** One cart entry per product *)

Lemma handleSaleSubmit_cart (env : SubmitEnv) (w : World) :
  cart (w_ui (handleSaleSubmit env w)) = cart (w_ui w)
  \/ cart (w_ui (handleSaleSubmit env w)) = [].
Proof.
  destruct (String.eqb_spec (trim (customerName (w_ui w))) "") as [He|Hname].
  - destruct (handleSaleSubmit_rejected env w (or_introl He)) as [m ->]. now left.
  - destruct (cart (w_ui w)) as [|c0 cs] eqn:Hc.
    + destruct (handleSaleSubmit_rejected env w (or_intror Hc)) as [m ->].
      left. simpl. now rewrite Hc.
    + assert (Hcart : cart (w_ui w) <> []) by (rewrite Hc; discriminate).
      rewrite (handleSaleSubmit_started env w Hname Hcart). cbv zeta.
      destruct (snd (sale_step env w)) as [saleData|e]; [|left; simpl; now rewrite Hc].
      destruct (snd (items_step env w saleData)); frame; simpl;
        [now right | left; now rewrite Hc].
Qed.

Lemma markAsFulfilled_cart (env : FulfilEnv) (saleId : string) (w : World) :
  cart (w_ui (markAsFulfilled env saleId w)) = cart (w_ui w).
Proof.
  unfold markAsFulfilled.
  destruct (update_sale_status _ _ _ _) as [db1 [u|e]]; frame; reflexivity.
Qed.

Lemma step_cart_NoDup (a : Action) (w : World) :
  NoDup (cart_ids (cart (w_ui w))) -> NoDup (cart_ids (cart (w_ui (step a w)))).
Proof.
  intros Hnd. destruct a; simpl; frame; try assumption.
  - now apply addToCart_NoDup.
  - now apply filter_ids_NoDup.
  - destruct (handleSaleSubmit_cart env w) as [-> | ->]; [assumption | constructor].
  - now rewrite markAsFulfilled_cart.
Qed.

Lemma run_cart_NoDup (actions : list Action) :
  forall w : World,
    NoDup (cart_ids (cart (w_ui w))) ->
    NoDup (cart_ids (cart (w_ui (run actions w)))).
Proof.
  unfold run. induction actions as [|a actions IH]; intros w Hnd; simpl.
  - assumption.
  - apply IH. now apply step_cart_NoDup.
Qed.

(** C10: from an empty cart, after any sequence of the component's actions
    (adds and removals among them) the cart has at most one entry per
    product_id; [addToCart] for a product the cart already holds keeps the
    cart's list of product ids as it is (it merges, it does not append);
    [removeFromCart] leaves no entry with the given product_id, keeps every
    other entry, and changes nothing when there was no such entry. *)
Theorem cart_one_entry_per_product (actions : list Action) (w : World)
    (Hempty : cart (w_ui w) = []) :
  NoDup (cart_ids (cart (w_ui (run actions w))))
  /\ (forall st : State,
        In (selectedProduct st) (cart_ids (cart st)) ->
        cart_ids (cart (addToCart st)) = cart_ids (cart st))
  /\ (forall (productId : string) (st : State),
        ~ In productId (cart_ids (cart (removeFromCart productId st)))
        /\ (forall item, In item (cart st) -> ci_product_id item <> productId ->
              In item (cart (removeFromCart productId st)))
        /\ (forall item, In item (cart (removeFromCart productId st)) -> In item (cart st))
        /\ (~ In productId (cart_ids (cart st)) ->
              cart (removeFromCart productId st) = cart st)).
Proof.
  split; [|split].
  - apply run_cart_NoDup. rewrite Hempty. constructor.
  - intros st Hin.
    destruct (addToCart_cart st) as [H | [[qty H] | [qty [Hnin H]]]].
    + now rewrite H.
    + rewrite H. apply merged_cart_ids.
    + contradiction.
  - intros productId st. rewrite removeFromCart_cart. repeat split.
    + unfold cart_ids. intros Hin. apply in_map_iff in Hin.
      destruct Hin as [item [Hid Hin]]. apply filter_In in Hin.
      destruct Hin as [_ Hneq]. rewrite Hid, String.eqb_refl in Hneq. discriminate.
    + intros item Hin Hne. apply filter_In. split; [assumption|].
      apply negb_true_iff. now apply String.eqb_neq.
    + intros item Hin. apply filter_In in Hin. tauto.
    + intros Hnin. apply forallb_filter_id. apply forallb_forall.
      intros item Hin. apply negb_true_iff. apply String.eqb_neq.
      intros Heq. apply Hnin. unfold cart_ids. apply in_map_iff. now exists item.
Qed.

(** ** The stock trigger *)

Lemma decrement_for_id (NEW : SaleItemRow) (x : Product) :
  p_id (decrement_for NEW x) = p_id x.
Proof. unfold decrement_for. now destruct (String.eqb _ _). Qed.

Lemma filter_decrement (NEW : SaleItemRow) (id : string) (ps : list Product) :
  filter (fun x => String.eqb (p_id x) id) (map (decrement_for NEW) ps)
  = map (decrement_for NEW) (filter (fun x => String.eqb (p_id x) id) ps).
Proof.
  induction ps as [|x ps IH]; cbn [map filter]; [reflexivity|].
  rewrite decrement_for_id.
  destruct (String.eqb (p_id x) id); cbn [map]; now rewrite IH.
Qed.

Lemma update_stock_unfold (NEW : SaleItemRow) (ps : list Product) :
  update_stock_on_sale_item NEW ps
  = match map (decrement_for NEW)
            (filter (fun x => String.eqb (p_id x) (ir_product_id NEW)) ps) with
    | [] => Ok (map (decrement_for NEW) ps)
    | [p] =>
        if p_stock p <? 0 then Err (Raised "Insufficient stock for product")
        else Ok (map (decrement_for NEW) ps)
    | _ => Err (Raised "more than one row returned by a subquery used as an expression")
    end.
Proof.
  unfold update_stock_on_sale_item. now rewrite filter_decrement.
Qed.



Lemma update_stock_ok (NEW : SaleItemRow) (ps ps' : list Product) :
  update_stock_on_sale_item NEW ps = Ok ps' -> ps' = map (decrement_for NEW) ps.
Proof.
  rewrite update_stock_unfold.
  destruct (map _ (filter _ ps)) as [|p [|p' l]]; [congruence | | discriminate].
  destruct (p_stock p <? 0); [discriminate | congruence].
Qed.

Lemma after_insert_rows_sold (sales_table : list SaleRow)
    (new_rows : list SaleItemRow) :
  forall ps ps' : list Product,
    after_insert_rows new_rows sales_table ps = Ok ps' ->
    ps' = map (fun x => set_stock x (p_stock x - sold new_rows (p_id x))) ps.
Proof.
  induction new_rows as [|NEW rest IH]; intros ps ps'; simpl.
  - intros H. injection H as <-. rewrite <- (map_id ps) at 1. apply map_ext.
    intros [i n pr c s]. unfold set_stock, sold. simpl. f_equal. lia.
  - destruct (negb (has_id sr_id (ir_sale_id NEW) sales_table)); [discriminate|].
    destruct (negb (has_id p_id (ir_product_id NEW) ps)); [discriminate|].
    destruct (update_stock_on_sale_item NEW ps) as [ps1|e] eqn:Hupd; [|discriminate].
    intros Hrest. apply IH in Hrest. apply update_stock_ok in Hupd. subst ps1 ps'.
    rewrite map_map. apply map_ext. intros [i n pr c s].
    unfold decrement_for, sold, set_stock. simpl.
    rewrite (String.eqb_sym (ir_product_id NEW) i).
    destruct (String.eqb i (ir_product_id NEW)); simpl; f_equal; lia.
Qed.


(** ** Fulfilment *)

Lemma insert_by_In {A : Type} (le : A -> A -> bool) (x y : A) (l : list A) :
  In y (insert_by le x l) <-> y = x \/ In y l.
Proof.
  induction l as [|z l IH]; simpl.
  - split; [intros [H|[]]; now left | intros [H|[]]; now left].
  - destruct (le x z); simpl; [|rewrite IH]; intuition congruence.
Qed.

Lemma order_by_In {A : Type} (le : A -> A -> bool) (y : A) (l : list A) :
  In y (order_by le l) <-> In y l.
Proof.
  unfold order_by. induction l as [|x l IH]; simpl; [tauto|].
  rewrite insert_by_In, IH. intuition congruence.
Qed.

Lemma fulfil_row_id (saleId : string) (x : SaleRow) :
  sr_id (fulfil_row saleId x) = sr_id x.
Proof. unfold fulfil_row. now destruct (String.eqb _ _). Qed.

Lemma update_sale_status_ok (saleId : string) (db : Db) :
  update_sale_status None saleId fulfilled db
  = (mkDb (db_products db) (map (fulfil_row saleId) (db_sales db)) (db_sale_items db),
     Ok tt).
Proof. reflexivity. Qed.

Lemma markAsFulfilled_db (env : FulfilEnv) (saleId : string) (w : World) :
  w_db (markAsFulfilled env saleId w)
  = match update_fault env with
    | Some _ => w_db w
    | None => mkDb (db_products (w_db w)) (map (fulfil_row saleId) (db_sales (w_db w)))
                (db_sale_items (w_db w))
    end.
Proof.
  unfold markAsFulfilled, update_sale_status.
  destruct (update_fault env); frame; reflexivity.
Qed.

(** C7: for a sale that the store holds as not_fulfilled, a
    [markAsFulfilled] whose update reaches the store sets the status of
    the rows with that id to fulfilled and changes nothing else: the
    sale's other fields, the other sales, the products and the line items
    are as before, in the store and (products, cart) in the component;
    afterwards no sale with that id is not_fulfilled in the store, and once
    the sales are fetched again the sale is in the snapshot as fulfilled,
    with its other fields and its line items unchanged, and is not in the
    pending list. *)
Theorem markAsFulfilled_spec (env : FulfilEnv) (saleId : string) (w : World)
    (r : SaleRow)
    (Hin : In r (db_sales (w_db w)))
    (Hid : sr_id r = saleId)
    (Hpending : sr_status r = not_fulfilled)
    (Hok : update_fault env = None) :
  let w' := markAsFulfilled env saleId w in
  db_sales (w_db w') = map (fulfil_row saleId) (db_sales (w_db w))
  /\ In (mkSaleRow (sr_id r) (sr_customer_name r) fulfilled
          (sr_total_amount r) (sr_sale_date r)) (db_sales (w_db w'))
  /\ (forall x, sr_id x <> saleId ->
        (In x (db_sales (w_db w)) <-> In x (db_sales (w_db w'))))
  /\ db_products (w_db w') = db_products (w_db w)
  /\ db_sale_items (w_db w') = db_sale_items (w_db w)
  /\ products (w_ui w') = products (w_ui w)
  /\ cart (w_ui w') = cart (w_ui w)
  /\ (forall x, In x (db_sales (w_db w')) -> sr_id x = saleId -> sr_status x = fulfilled)
  /\ (refetch_fault env = None ->
        In (mkSale (sr_id r) (sr_customer_name r) fulfilled (sr_total_amount r)
              (sr_sale_date r) (sale_items_of (w_db w) (sr_id r)))
           (sales (w_ui w'))
        /\ forall s, In s (pending (sales (w_ui w'))) -> s_id s <> saleId).
Proof.
  cbv zeta.
  assert (Hdb : w_db (markAsFulfilled env saleId w)
                = mkDb (db_products (w_db w)) (map (fulfil_row saleId) (db_sales (w_db w)))
                    (db_sale_items (w_db w)))
    by (rewrite markAsFulfilled_db, Hok; reflexivity).
  assert (Hrow : In (mkSaleRow (sr_id r) (sr_customer_name r) fulfilled
                       (sr_total_amount r) (sr_sale_date r))
                   (map (fulfil_row saleId) (db_sales (w_db w)))).
  { apply in_map_iff. exists r. split; [|assumption].
    unfold fulfil_row. rewrite Hid, String.eqb_refl. unfold set_status.
    now rewrite Hid. }
  assert (Hall : forall x, In x (map (fulfil_row saleId) (db_sales (w_db w))) ->
                   sr_id x = saleId -> sr_status x = fulfilled).
  { intros x Hx Hxid. apply in_map_iff in Hx. destruct Hx as [y [<- Hy]].
    rewrite fulfil_row_id in Hxid. unfold fulfil_row.
    apply String.eqb_eq in Hxid. now rewrite Hxid. }
  rewrite Hdb. simpl.
  split; [reflexivity|]. split; [exact Hrow|]. split; [|split; [reflexivity|]].
  - intros x Hx. split.
    + intros Hxin. apply in_map_iff. exists x. split; [|assumption].
      unfold fulfil_row. apply String.eqb_neq in Hx. now rewrite Hx.
    + intros Hxin. apply in_map_iff in Hxin. destruct Hxin as [y [Hy Hyin]].
      unfold fulfil_row in Hy. destruct (String.eqb_spec (sr_id y) saleId) as [He|Hne].
      * subst x. simpl in Hx. contradiction.
      * now subst y.
  - split; [reflexivity|].
    unfold markAsFulfilled. rewrite Hok, update_sale_status_ok.
    split; [frame; reflexivity|]. split; [frame; reflexivity|].
    split; [exact Hall|].
    intros Hfetch. unfold fetchSales, select_sales. rewrite Hfetch. simpl. split.
    + apply order_by_In. apply in_map_iff.
      exists (mkSaleRow (sr_id r) (sr_customer_name r) fulfilled
                (sr_total_amount r) (sr_sale_date r)).
      split; [reflexivity | exact Hrow].
    + intros s Hs. unfold pending in Hs. apply filter_In in Hs.
      destruct Hs as [Hs Hst]. apply order_by_In in Hs. apply in_map_iff in Hs.
      destruct Hs as [x [<- Hx]]. simpl in *. intros Hxid.
      rewrite (Hall x Hx Hxid) in Hst. discriminate.
Qed.

(** ** The status of a sale over time *)

Lemma find_app_some {A : Type} (f : A -> bool) (l l' : list A) (x : A) :
  find f l = Some x -> find f (l ++ l') = Some x.
Proof.
  induction l as [|y l IH]; simpl; [discriminate|].
  destruct (f y); [trivial | exact IH].
Qed.

Lemma find_fulfil_row (saleId id : string) (rows : list SaleRow) :
  find (fun r => String.eqb (sr_id r) id) (map (fulfil_row saleId) rows)
  = option_map (fulfil_row saleId) (find (fun r => String.eqb (sr_id r) id) rows).
Proof.
  induction rows as [|x rows IH]; simpl; [reflexivity|].
  rewrite fulfil_row_id. destruct (String.eqb (sr_id x) id); [reflexivity | exact IH].
Qed.

Lemma handleSaleSubmit_sales (env : SubmitEnv) (w : World) :
  db_sales (w_db (handleSaleSubmit env w)) = db_sales (w_db w)
  \/ exists row, sr_status row = not_fulfilled
                 /\ db_sales (w_db (handleSaleSubmit env w)) = db_sales (w_db w) ++ [row].
Proof.
  destruct (String.eqb_spec (trim (customerName (w_ui w))) "") as [He|Hname].
  - destruct (handleSaleSubmit_rejected env w (or_introl He)) as [m ->]. now left.
  - destruct (cart (w_ui w)) as [|c0 cs] eqn:Hc.
    + destruct (handleSaleSubmit_rejected env w (or_intror Hc)) as [m ->]. now left.
    + assert (Hcart : cart (w_ui w) <> []) by (rewrite Hc; discriminate).
      destruct (snd (sale_step env w)) as [saleData|e] eqn:Hsale.
      * right. exists saleData.
        destruct (insert_sale_created _ _ _ _ _ _ Hsale) as (Hdb & _ & _ & Hst & _).
        fold (sale_step env w) in Hdb. split; [exact Hst|].
        rewrite (handleSaleSubmit_started env w Hname Hcart). cbv zeta.
        rewrite Hsale.
        assert (Hsales : db_sales (fst (items_step env w saleData))
                         = db_sales (w_db w) ++ [saleData])
          by (unfold items_step; rewrite insert_sale_items_sales, Hdb; reflexivity).
        destruct (snd (items_step env w saleData)); frame; simpl; exact Hsales.
      * left. rewrite (handleSaleSubmit_started env w Hname Hcart). cbv zeta.
        rewrite Hsale. simpl. unfold sale_step, insert_sale in *.
        destruct (sale_fault env); [reflexivity|].
        destruct (ins_total_amount _); [|reflexivity].
        destruct (has_id _ _ _); [reflexivity | discriminate].
Qed.

(** One step leaves the status of an existing sale alone or takes it from
    not_fulfilled to fulfilled. *)
Lemma step_status (a : Action) (w : World) (id : string) (s : Status) :
  sale_status id (w_db w) = Some s ->
  sale_status id (w_db (step a w)) = Some s
  \/ (s = not_fulfilled /\ sale_status id (w_db (step a w)) = Some fulfilled).
Proof.
  unfold sale_status. intros Hs.
  destruct (find (fun r => String.eqb (sr_id r) id) (db_sales (w_db w)))
    as [r|] eqn:Hfind; [|discriminate].
  simpl in Hs. injection Hs as Hs.
  destruct a; simpl; frame; try (left; rewrite Hfind; simpl; congruence).
  - destruct (handleSaleSubmit_sales env w) as [-> | [row [_ ->]]].
    + left. rewrite Hfind. simpl. congruence.
    + left. rewrite (find_app_some _ _ _ _ Hfind). simpl. congruence.
  - rewrite markAsFulfilled_db. destruct (update_fault env).
    + left. rewrite Hfind. simpl. congruence.
    + simpl. rewrite find_fulfil_row, Hfind. simpl. unfold fulfil_row.
      destruct (String.eqb (sr_id r) saleId); simpl.
      * destruct s; [right; split; [reflexivity|reflexivity] | left; reflexivity].
      * left. congruence.
Qed.

Lemma run_app (before after : list Action) (w : World) :
  run (before ++ after) w = run after (run before w).
Proof. unfold run. apply fold_left_app. Qed.

Lemma run_fulfilled (actions : list Action) (id : string) :
  forall w : World,
    sale_status id (w_db w) = Some fulfilled ->
    sale_status id (w_db (run actions w)) = Some fulfilled.
Proof.
  unfold run. induction actions as [|a actions IH]; intros w Hw; simpl; [assumption|].
  apply IH. destruct (step_status a w id fulfilled Hw) as [H | [H _]];
    [assumption | discriminate].
Qed.

Lemma status_changes_bound (id : string) (actions : list Action) :
  forall w : World,
    (status_changes id actions w <= 1)%nat
    /\ (sale_status id (w_db w) = Some fulfilled -> status_changes id actions w = 0%nat).
Proof.
  induction actions as [|a actions IH]; intros w; simpl; [split; [lia | reflexivity]|].
  destruct (IH (step a w)) as [Hle Hzero].
  destruct (sale_status id (w_db w)) as [s|] eqn:Hs; simpl.
  - destruct (step_status a w id s Hs) as [H | [-> H]]; rewrite H; simpl.
    + replace (negb (Status_eqb s s)) with false by (now destruct s).
      split; [lia|]. intros Hf. injection Hf as ->. rewrite (Hzero H). reflexivity.
    + rewrite (Hzero H). split; [lia | discriminate].
  - split; [lia | discriminate].
Qed.

(** C8: over every sequence of the system's actions (sale submissions and
    fulfilment marks among them), a sale that the store holds as fulfilled
    is fulfilled ever after; each step leaves the status of a sale as it is
    or takes it from not_fulfilled to fulfilled; so along any run the
    status of a sale changes at most once. *)
Theorem status_never_reverts (before after : list Action) (w : World) (id : string)
    (Hfulfilled : sale_status id (w_db (run before w)) = Some fulfilled) :
  sale_status id (w_db (run (before ++ after) w)) = Some fulfilled
  /\ sale_status id (w_db (run (before ++ after) w)) <> Some not_fulfilled
  /\ (forall (a : Action) (w0 : World) (s : Status),
        sale_status id (w_db w0) = Some s ->
        sale_status id (w_db (step a w0)) = Some s
        \/ (s = not_fulfilled /\ sale_status id (w_db (step a w0)) = Some fulfilled))
  /\ (forall (actions : list Action) (w0 : World),
        (status_changes id actions w0 <= 1)%nat).
Proof.
  assert (H : sale_status id (w_db (run (before ++ after) w)) = Some fulfilled)
    by (rewrite run_app; now apply run_fulfilled).
  split; [exact H|]. split; [rewrite H; discriminate|]. split.
  - intros a w0 s. apply step_status.
  - intros actions w0. apply status_changes_bound.
Qed.

(** * The statements at concrete inputs *)

Example parseInt_examples :
  parseInt "12" = JNum 12 /\ parseInt " -7px" = JNum (-7) /\ parseInt "0" = JNum 0
  /\ parseInt "1e3" = JNum 1 /\ parseInt "0x1F" = JNum 31
  /\ parseInt ".5" = JNaN /\ parseInt "" = JNaN /\ parseInt "abc" = JNaN.
Proof. repeat split. Qed.

Example trim_examples :
  trim "  Ana Maria  " = "Ana Maria" /\ trim "   " = "" /\ trim "" = "".
Proof. repeat split. Qed.

Example calculateMetrics_example :
  calculateMetrics
    [mkSale "s-1" "Ana" fulfilled 20700 "2025-08-21T10:00:00Z"
       [mkSaleItem "i-0" "s-1" "p-molde" 2 6900 13800 (Some "Keto Molde");
        mkSaleItem "i-1" "s-1" "p-gone" 1 6900 6900 None]]
    [ketoMolde; ketoRedondito]
  = mkMetrics 1 20700 5700 3.
Proof. reflexivity. Qed.

(** Mounting the component on the seeded store loads the two products. *)
Example mount_example :
  w_ui (run [Mount None None] (mkWorld initial_state seeded_db [])) = loaded_state.
Proof. reflexivity. Qed.

(** The order of [order_world], submitted: both inserts go through, the
    trigger takes 2 and 1 from the stocks, the form is cleared and the
    snapshots and metrics are refreshed. *)
Example submit_order_example :
  let w' := handleSaleSubmit calm order_world in
  map p_stock (db_products (w_db w')) = [18; 19]
  /\ db_sales (w_db w')
     = [mkSaleRow "s-1" "Ana" not_fulfilled 20700 "2025-08-21T10:00:00Z"]
  /\ map ir_subtotal (db_sale_items (w_db w')) = [13800; 6900]
  /\ cart (w_ui w') = [] /\ customerName (w_ui w') = ""
  /\ metrics (w_ui w') = mkMetrics 1 20700 8550 3
  /\ map s_id (pending (sales (w_ui w'))) = ["s-1"]
  /\ List.length (w_requests w') = 4%nat.
Proof. vm_compute. repeat split. Qed.

(** The same order when the store has only one Keto Molde left (the
    snapshot is stale): the sale is created, the trigger refuses the line
    items, the stock stays 1, the sale stays without items, the cart stays. *)
Example oversell_example :
  let db := mkDb [mkProduct "p-molde" "Keto Molde" 6900 4050 1; ketoRedondito] [] [] in
  let w' := handleSaleSubmit calm (mkWorld order_state db []) in
  map p_stock (db_products (w_db w')) = [1; 20]
  /\ map sr_id (db_sales (w_db w')) = ["s-1"]
  /\ db_sale_items (w_db w') = []
  /\ cart (w_ui w') = cart order_state
  /\ toasts (w_ui w') = [mkToast "Error" "Insufficient stock for product" destructive].
Proof. vm_compute. repeat split. Qed.

Lemma addToCart_spec_witness :
  let st := setQuantity "3" (setSelectedProduct "p-molde" loaded_state) in
  selectedProduct st = p_id ketoMolde
  /\ p_id ketoMolde <> ""
  /\ find_product (products st) (p_id ketoMolde) = Some ketoMolde
  /\ parseInt (quantity st) = JNum 3
  /\ cart (addToCart st) = [mkCartItem "p-molde" (JNum 3)]
  /\ cart (addToCart (setQuantity "2" (setSelectedProduct "p-molde" (addToCart st))))
     = [mkCartItem "p-molde" (JNum 5)].
Proof.
  cbv zeta.
  assert (Hid : p_id ketoMolde <> "") by (simpl; discriminate).
  split; [reflexivity|]. split; [exact Hid|]. split; [reflexivity|].
  split; [reflexivity|].
  destruct (addToCart_spec
              (setQuantity "3" (setSelectedProduct "p-molde" loaded_state))
              ketoMolde 3 eq_refl Hid eq_refl eq_refl) as (Hacc & _ & Hexample).
  split.
  - destruct Hacc as (_ & Hnew & _); [simpl; lia|]. apply Hnew. reflexivity.
  - apply Hexample; [reflexivity | reflexivity | simpl; lia | reflexivity].
Defined.



Lemma handleSaleSubmit_validation_witness :
  let w := mkWorld loaded_state seeded_db [] in
  (trim (customerName (w_ui w)) = "" \/ cart (w_ui w) = [])
  /\ w_requests (handleSaleSubmit calm w) = []
  /\ w_db (handleSaleSubmit calm w) = seeded_db
  /\ cart (w_ui (handleSaleSubmit calm w)) = [].
Proof.
  cbv zeta. split; [left; reflexivity|].
  destruct (handleSaleSubmit_validation calm (mkWorld loaded_state seeded_db [])
              (or_introl eq_refl)) as (Hreq & Hdb & _ & Hc & _).
  split; [exact Hreq|]. split; [exact Hdb | exact Hc].
Defined.

Lemma handleSaleSubmit_failure_witness :
  trim (customerName (w_ui order_world)) <> ""
  /\ cart (w_ui order_world) <> []
  /\ snd (sale_step offline order_world) = Err (NetworkError "Failed to fetch")
  /\ cart (w_ui (handleSaleSubmit offline order_world)) = cart order_state
  /\ customerName (w_ui (handleSaleSubmit offline order_world)) = " Ana "
  /\ toasts (w_ui (handleSaleSubmit offline order_world))
     = [mkToast "Error" "Failed to fetch" destructive].
Proof.
  assert (Hname : trim (customerName (w_ui order_world)) <> "")
    by (vm_compute; discriminate).
  assert (Hcart : cart (w_ui order_world) <> []) by (simpl; discriminate).
  split; [exact Hname|]. split; [exact Hcart|]. split; [reflexivity|].
  destruct (handleSaleSubmit_failure offline order_world Hname Hcart) as (Hfirst & _).
  destruct (Hfirst (NetworkError "Failed to fetch") eq_refl) as (Hc & Hn & _ & Ht).
  split; [exact Hc|]. split; [exact Hn | exact Ht].
Defined.

Lemma markAsFulfilled_spec_witness :
  let r := mkSaleRow "s-1" "Ana" not_fulfilled 13800 "2025-08-21T10:00:00Z" in
  let w' := markAsFulfilled fulfil_now "s-1" pending_world in
  In r (db_sales (w_db pending_world))
  /\ sr_id r = "s-1"
  /\ sr_status r = not_fulfilled
  /\ update_fault fulfil_now = None
  /\ db_sales (w_db w') = [mkSaleRow "s-1" "Ana" fulfilled 13800 "2025-08-21T10:00:00Z"]
  /\ db_products (w_db w') = db_products pending_db
  /\ (forall s, In s (pending (sales (w_ui w'))) -> s_id s <> "s-1").
Proof.
  cbv zeta.
  assert (Hin : In (mkSaleRow "s-1" "Ana" not_fulfilled 13800 "2025-08-21T10:00:00Z")
                  (db_sales (w_db pending_world))) by (simpl; now left).
  split; [exact Hin|]. split; [reflexivity|]. split; [reflexivity|].
  split; [reflexivity|].
  destruct (markAsFulfilled_spec fulfil_now "s-1" pending_world _ Hin
              eq_refl eq_refl eq_refl)
    as (Hsales & _ & _ & Hproducts & _ & _ & _ & _ & Hsnapshot).
  split; [rewrite Hsales; reflexivity|]. split; [exact Hproducts|].
  apply Hsnapshot. reflexivity.
Defined.

Lemma status_never_reverts_witness :
  let before := [SubmitSale calm; ClickFulfill fulfil_now "s-1"] in
  let after :=
    [SelectProduct "p-molde"; TypeQuantity "1"; ClickAdd; TypeCustomerName "Luz";
     SubmitSale calm_again; ClickFulfill fulfil_now "s-1"] in
  sale_status "s-1" (w_db (run before order_world)) = Some fulfilled
  /\ sale_status "s-1" (w_db (run (before ++ after) order_world)) = Some fulfilled
  /\ sale_status "s-2" (w_db (run (before ++ after) order_world)) = Some not_fulfilled.
Proof.
  cbv zeta. split; [reflexivity|]. split; [|reflexivity].
  apply (status_never_reverts [SubmitSale calm; ClickFulfill fulfil_now "s-1"]).
  reflexivity.
Defined.

Lemma cart_one_entry_per_product_witness :
  let w := mkWorld loaded_state seeded_db [] in
  let actions :=
    [SelectProduct "p-molde"; TypeQuantity "3"; ClickAdd;
     SelectProduct "p-redondito"; TypeQuantity "1"; ClickAdd;
     SelectProduct "p-molde"; TypeQuantity "2"; ClickAdd;
     ClickRemove "p-redondito"] in
  cart (w_ui w) = []
  /\ cart (w_ui (run actions w)) = [mkCartItem "p-molde" (JNum 5)]
  /\ NoDup (cart_ids (cart (w_ui (run actions w)))).
Proof.
  cbv zeta. split; [reflexivity|]. split; [reflexivity|].
  apply cart_one_entry_per_product. reflexivity.
Defined.

(** * Further properties *)

(** ** The cart beyond the accepted and the refused quantity *)

(** X1: [addToCart] touches nothing but the cart, the two form fields and
    the toasts.  When it shows a toast, the cart and the form fields are as
    they were; when it changes the cart, it shows no toast and clears both
    fields.  With a field empty it shows its first message; with a selected
    id that no product of the list has, it does nothing at all, not even a
    message. *)
Theorem addToCart_frame (st : State) :
  let st' := addToCart st in
  (products st' = products st /\ sales st' = sales st /\ metrics st' = metrics st
   /\ customerName st' = customerName st /\ isSubmitting st' = isSubmitting st)
  /\ (toasts st' <> toasts st ->
        cart st' = cart st /\ selectedProduct st' = selectedProduct st
        /\ quantity st' = quantity st
        /\ exists message, toasts st' = toasts st ++ [mkToast "Error" message destructive])
  /\ (cart st' <> cart st ->
        toasts st' = toasts st /\ selectedProduct st' = "" /\ quantity st' = "")
  /\ (selectedProduct st = "" \/ quantity st = "" ->
        toasts st'
        = toasts st ++ [mkToast "Error" "Please select a product and enter quantity"
                          destructive])
  /\ (selectedProduct st <> "" -> quantity st <> "" ->
        find_product (products st) (selectedProduct st) = None -> st' = st).
Proof.
  cbv zeta. unfold addToCart.
  destruct (String.eqb_spec (selectedProduct st) "") as [Hs|Hs];
    [|destruct (String.eqb_spec (quantity st) "") as [Hq|Hq]]; simpl.
  3: destruct (find_product (products st) (selectedProduct st)) as [p|];
       [destruct (jle _ _ || jgt _ _); simpl|].
  all: repeat split; intros; try reflexivity; try (eexists; reflexivity);
    try (intuition congruence); try (now destruct st).
Qed.

Lemma jsum_nan (l : list jsnum) : jsum l = JNaN <-> In JNaN l.
Proof.
  unfold jsum. induction l as [|x l IH]; simpl.
  - split; [discriminate | intros []].
  - destruct x as [z|]; simpl.
    + destruct (fold_right jadd (JNum 0) l) as [y|] eqn:Hl.
      * split; [discriminate|]. intros [H|H]; [discriminate|].
        apply IH in H. discriminate.
      * split; [intros _; right; now apply IH | reflexivity].
    + split; [intros _; now left | reflexivity].
Qed.


Lemma getCartTotal_nan_iff (st : State) :
  getCartTotal st = JNaN
  <-> exists item, In item (cart st) /\ resolvable st item = true
                   /\ ci_quantity item = JNaN.
Proof.
  rewrite getCartTotal_resolvable, jsum_nan, in_map_iff. split.
  - intros [item [Hmul Hin]]. apply filter_In in Hin. destruct Hin as [Hin Hres].
    exists item. repeat split; try assumption.
    destruct (ci_quantity item); [discriminate | reflexivity].
  - intros [item (Hin & Hres & Hq)]. exists item. split.
    + now rewrite Hq.
    + apply filter_In. now split.
Qed.


(** X3: a quantity field that is not empty and parses to NaN (".5", "abc")
    passes both tests of [addToCart]: no toast is shown, the product gets
    an entry whose quantity is NaN (a new one, or the existing one, whose
    quantity is lost), and the cart total becomes NaN. *)
Theorem addToCart_nan (st : State) (p : Product)
    (Hsel : selectedProduct st <> "")
    (Hq : quantity st <> "")
    (Hfind : find_product (products st) (selectedProduct st) = Some p)
    (Hnan : parseInt (quantity st) = JNaN) :
  toasts (addToCart st) = toasts st
  /\ cart (addToCart st)
     = match find_cart_item (cart st) (selectedProduct st) with
       | Some _ => merged_cart (cart st) (selectedProduct st) JNaN
       | None => cart st ++ [mkCartItem (selectedProduct st) JNaN]
       end
  /\ In (mkCartItem (selectedProduct st) JNaN) (cart (addToCart st))
  /\ cart_ids (cart (addToCart st))
     = match find_cart_item (cart st) (selectedProduct st) with
       | Some _ => cart_ids (cart st)
       | None => cart_ids (cart st) ++ [selectedProduct st]
       end
  /\ getCartTotal (addToCart st) = JNaN.
Proof.
  rewrite (addToCart_accepts st p JNaN Hsel Hq Hfind Hnan eq_refl). simpl.
  assert (Hin : In (mkCartItem (selectedProduct st) JNaN)
                  match find_cart_item (cart st) (selectedProduct st) with
                  | Some _ => merged_cart (cart st) (selectedProduct st) JNaN
                  | None => cart st ++ [mkCartItem (selectedProduct st) JNaN]
                  end).
  { destruct (find_cart_item (cart st) (selectedProduct st)) as [e|] eqn:He.
    - unfold find_cart_item in He. apply find_some in He. destruct He as [Hin Hid].
      unfold merged_cart. apply in_map_iff. exists e. split; [|assumption].
      rewrite Hid. apply String.eqb_eq in Hid. rewrite Hid.
      now destruct (ci_quantity e).
    - apply in_or_app. right. now left. }
  split; [reflexivity|]. split; [reflexivity|]. split; [exact Hin|]. split.
  - destruct (find_cart_item (cart st) (selectedProduct st)).
    + apply merged_cart_ids.
    + unfold cart_ids. now rewrite map_app.
  - apply getCartTotal_nan_iff. exists (mkCartItem (selectedProduct st) JNaN).
    simpl. split; [exact Hin|]. split; [|reflexivity].
    unfold resolvable. simpl. apply has_id_find_product. now exists p.
Qed.

Lemma filter_merged_cart (c : list CartItem) (id : string) (qty : jsnum) :
  filter (fun item => negb (String.eqb (ci_product_id item) id)) (merged_cart c id qty)
  = filter (fun item => negb (String.eqb (ci_product_id item) id)) c.
Proof.
  unfold merged_cart. induction c as [|e c IH]; simpl; [reflexivity|].
  destruct (String.eqb (ci_product_id e) id) eqn:He; simpl.
  - rewrite He. simpl. exact IH.
  - rewrite He. simpl. now rewrite IH.
Qed.

Lemma filter_twice {A : Type} (f g : A -> bool) (l : list A) :
  filter f (filter g l) = filter g (filter f l).
Proof.
  induction l as [|x l IH]; simpl; [reflexivity|].
  destruct (f x) eqn:Hf, (g x) eqn:Hg; simpl; rewrite ?Hf, ?Hg, IH; reflexivity.
Qed.

Lemma filter_idem {A : Type} (f : A -> bool) (l : list A) :
  filter f (filter f l) = filter f l.
Proof.
  induction l as [|x l IH]; simpl; [reflexivity|].
  destruct (f x) eqn:Hf; simpl; rewrite ?Hf, IH; reflexivity.
Qed.

(** X4: removing the product that was just selected for [addToCart] leaves
    the cart that removing it before the add would have left: the removal
    drops the whole entry, whatever the add did to it.  So an add of a
    product the cart did not hold, followed by its removal, gives back the
    cart; a second removal of the same product changes nothing; removals
    of two products can be done in either order. *)
Theorem removeFromCart_after_add (st : State) (a b : string) :
  cart (removeFromCart (selectedProduct st) (addToCart st))
  = cart (removeFromCart (selectedProduct st) st)
  /\ (~ In (selectedProduct st) (cart_ids (cart st)) ->
        cart (removeFromCart (selectedProduct st) (addToCart st)) = cart st)
  /\ removeFromCart a (removeFromCart a st) = removeFromCart a st
  /\ removeFromCart a (removeFromCart b st) = removeFromCart b (removeFromCart a st).
Proof.
  assert (Hfirst : cart (removeFromCart (selectedProduct st) (addToCart st))
                   = cart (removeFromCart (selectedProduct st) st)).
  { rewrite !removeFromCart_cart.
    destruct (addToCart_cart st) as [H | [[qty H] | [qty [_ H]]]]; rewrite H.
    - reflexivity.
    - apply filter_merged_cart.
    - rewrite filter_app. simpl. rewrite String.eqb_refl. simpl. apply app_nil_r. }
  split; [exact Hfirst|]. split; [|split].
  - intros Hnin. rewrite Hfirst, removeFromCart_cart.
    apply forallb_filter_id. apply forallb_forall.
    intros item Hin. apply negb_true_iff. apply String.eqb_neq.
    intros Heq. apply Hnin. unfold cart_ids. apply in_map_iff. now exists item.
  - unfold removeFromCart, setCart. simpl. now rewrite filter_idem.
  - unfold removeFromCart, setCart. simpl. f_equal. apply filter_twice.
Qed.






(** ** Fulfilment where there is nothing to fulfil *)

Lemma fulfil_rows_done (saleId : string) (rows : list SaleRow) :
  (forall r, In r rows -> sr_id r = saleId -> sr_status r = fulfilled) ->
  map (fulfil_row saleId) rows = rows.
Proof.
  intros Hdone. rewrite <- (map_id rows) at 2. apply map_ext_in.
  intros r Hin. unfold fulfil_row.
  destruct (String.eqb_spec (sr_id r) saleId) as [He|He]; [|reflexivity].
  specialize (Hdone r Hin He). destruct r as [i n st t d]. simpl in *.
  now rewrite Hdone.
Qed.

Lemma fulfil_rows_twice (saleId : string) (rows : list SaleRow) :
  map (fulfil_row saleId) (map (fulfil_row saleId) rows) = map (fulfil_row saleId) rows.
Proof.
  apply fulfil_rows_done. intros r Hin Hid. apply in_map_iff in Hin.
  destruct Hin as [x [<- _]]. rewrite fulfil_row_id in Hid. unfold fulfil_row.
  apply String.eqb_eq in Hid. now rewrite Hid.
Qed.

(** X6: when no sale of the store has the given id, or those that have it
    are fulfilled already, [markAsFulfilled] leaves the store as it is, and
    if the update gets through it still reports success and fetches the
    sales again; a failed update shows the error and fetches nothing.
    Marking the same sale a second time never changes the store again. *)
Theorem markAsFulfilled_nothing_to_do (env : FulfilEnv) (saleId : string) (w : World)
    (Hdone : forall r, In r (db_sales (w_db w)) -> sr_id r = saleId ->
                       sr_status r = fulfilled) :
  let w' := markAsFulfilled env saleId w in
  w_db w' = w_db w
  /\ (update_fault env = None ->
        w_requests w' = w_requests w ++ [ReqUpdateSaleStatus saleId fulfilled; ReqSelectSales]
        /\ exists rest,
             toasts (w_ui w')
             = toasts (w_ui w)
               ++ mkToast "Success!" "Order marked as fulfilled" default_variant :: rest)
  /\ (forall m, update_fault env = Some m ->
        w_requests w' = w_requests w ++ [ReqUpdateSaleStatus saleId fulfilled]
        /\ sales (w_ui w') = sales (w_ui w)
        /\ toasts (w_ui w')
           = toasts (w_ui w)
             ++ [mkToast "Error" (or_else m "Failed to update order status") destructive])
  /\ (forall (env1 env2 : FulfilEnv) (w0 : World),
        update_fault env1 = None ->
        w_db (markAsFulfilled env2 saleId (markAsFulfilled env1 saleId w0))
        = w_db (markAsFulfilled env1 saleId w0)).
Proof.
  cbv zeta. split; [|split; [|split]].
  - rewrite markAsFulfilled_db. destruct (update_fault env); [reflexivity|].
    rewrite (fulfil_rows_done _ _ Hdone). now destruct (w_db w).
  - intros Hok. unfold markAsFulfilled. rewrite Hok, update_sale_status_ok.
    split; [frame; simpl; now rewrite <- app_assoc|].
    unfold fetchSales. destruct (select_sales _ _); simpl.
    + exists []. reflexivity.
    + eexists. rewrite <- app_assoc. reflexivity.
  - intros m Hm. unfold markAsFulfilled, update_sale_status. rewrite Hm. simpl.
    repeat split.
  - intros env1 env2 w0 H1. rewrite (markAsFulfilled_db env2), (markAsFulfilled_db env1), H1.
    destruct (update_fault env2); [reflexivity|]. simpl. now rewrite fulfil_rows_twice.
Qed.

(** ** The two lists of orders *)



(** ** The customer name *)

Lemma trimStart_cases (s : string) :
  (trimStart s = "" /\ all_whitespace s = true)
  \/ (exists c rest, trimStart s = String c rest /\ is_whitespace c = false
                     /\ all_whitespace s = false).
Proof.
  induction s as [|c s IH]; simpl; [now left|].
  destruct (is_whitespace c) eqn:Hc; simpl.
  - exact IH.
  - right. now exists c, s.
Qed.

Lemma trimEnd_empty (s : string) : trimEnd s = "" <-> all_whitespace s = true.
Proof.
  induction s as [|c s IH]; simpl; [tauto|].
  destruct (trimEnd s) as [|d r].
  - destruct (is_whitespace c); simpl; [tauto|]. split; discriminate.
  - split; [discriminate|]. intros H. apply andb_true_iff in H.
    destruct H as [_ H]. apply IH in H. discriminate.
Qed.

Lemma trimEnd_first (c : ascii) (s : string) :
  is_whitespace c = false -> exists r, trimEnd (String c s) = String c r.
Proof.
  intros Hc. simpl. destruct (trimEnd s) as [|d r].
  - rewrite Hc. now exists ""%string.
  - now exists (String d r).
Qed.

Lemma trimEnd_last (s : string) :
  trimEnd s = ""
  \/ exists init c, trimEnd s = (init ++ String c "")%string /\ is_whitespace c = false.
Proof.
  induction s as [|c s IH]; simpl; [now left|].
  destruct (trimEnd s) as [|d r] eqn:Hs.
  - destruct (is_whitespace c) eqn:Hc; [now left|].
    right. now exists ""%string, c.
  - right. destruct IH as [H | [init [e [H He]]]]; [discriminate|].
    exists (String c init), e. simpl. now rewrite H.
Qed.

Lemma trimEnd_idem (s : string) : trimEnd (trimEnd s) = trimEnd s.
Proof.
  induction s as [|c s IH]; simpl; [reflexivity|].
  destruct (trimEnd s) as [|d r] eqn:Hs.
  - destruct (is_whitespace c) eqn:Hc; simpl; [reflexivity | now rewrite Hc].
  - change (trimEnd (String c (String d r))) with
      (match trimEnd (String d r) with
       | EmptyString => if is_whitespace c then EmptyString else String c EmptyString
       | x => String c x
       end).
    now rewrite IH.
Qed.

Lemma trim_empty (s : string) : trim s = "" <-> all_whitespace s = true.
Proof.
  unfold trim.
  destruct (trimStart_cases s) as [[H Hall] | [c [rest (H & Hc & Hall)]]]; rewrite H.
  - simpl. tauto.
  - destruct (trimEnd_first c rest Hc) as [r ->]. rewrite Hall. split; discriminate.
Qed.

Lemma trim_first (s : string) :
  trim s = "" \/ exists c rest, trim s = String c rest /\ is_whitespace c = false.
Proof.
  unfold trim.
  destruct (trimStart_cases s) as [[H _] | [c [rest (H & Hc & _)]]]; rewrite H.
  - now left.
  - right. destruct (trimEnd_first c rest Hc) as [r ->]. now exists c, r.
Qed.

Lemma trim_idem (s : string) : trim (trim s) = trim s.
Proof.
  destruct (trim_first s) as [H | [c [rest [H Hc]]]].
  - rewrite H. reflexivity.
  - unfold trim at 1. rewrite H. simpl trimStart. rewrite Hc.
    rewrite <- H. unfold trim. apply trimEnd_idem.
Qed.

(** X8: [trim] gives the empty string exactly for the names made of white
    space only, which [handleSaleSubmit] therefore refuses; otherwise the
    trimmed name begins and ends with a character that is not white space,
    trimming it again changes nothing, and it is under this name that a
    sale is stored. *)
Theorem customer_name_trimmed (name : string) :
  (trim name = "" <-> all_whitespace name = true)
  /\ trim (trim name) = trim name
  /\ (trim name <> "" ->
        (exists c rest, trim name = String c rest /\ is_whitespace c = false)
        /\ (exists init c, trim name = (init ++ String c "")%string
                           /\ is_whitespace c = false))
  /\ (forall env w,
        customerName (w_ui w) = name -> all_whitespace name = true ->
        handleSaleSubmit env w
        = with_ui (toast (mkToast "Error" "Please enter customer name" destructive)) w)
  /\ (forall env w saleData,
        customerName (w_ui w) = name ->
        snd (sale_step env w) = Ok saleData ->
        sr_customer_name saleData = trim name
        /\ trim (sr_customer_name saleData) = sr_customer_name saleData).
Proof.
  split; [apply trim_empty|]. split; [apply trim_idem|]. split; [|split].
  - intros Hne. split.
    + destruct (trim_first name) as [H|H]; [contradiction | exact H].
    + destruct (trimEnd_last (trimStart name)) as [H|H]; [contradiction | exact H].
  - intros env w Hn Hall. unfold handleSaleSubmit. rewrite Hn.
    apply trim_empty in Hall. now rewrite Hall.
  - intros env w saleData Hn Hsale.
    destruct (insert_sale_created _ _ _ _ _ _ Hsale) as (_ & _ & Hc & _).
    simpl in Hc. rewrite Hn in Hc. rewrite Hc. split; [reflexivity | apply trim_idem].
Qed.

(** ** What every operation of the store keeps *)

Lemma has_id_In {A : Type} (key : A -> string) (id : string) (l : list A) :
  has_id key id l = true <-> In id (map key l).
Proof.
  unfold has_id. rewrite existsb_exists, in_map_iff. split.
  - intros [x [Hin Heq]]. exists x. split; [now apply String.eqb_eq | assumption].
  - intros [x [Heq Hin]]. exists x. split; [assumption | now apply String.eqb_eq].
Qed.

Lemma has_id_false_In {A : Type} (key : A -> string) (id : string) (l : list A) :
  has_id key id l = false <-> ~ In id (map key l).
Proof.
  rewrite <- has_id_In. destruct (has_id key id l); split; congruence.
Qed.

Lemma has_id_same_keys {A : Type} (key : A -> string) (id : string) (l l' : list A) :
  map key l' = map key l -> has_id key id l' = has_id key id l.
Proof.
  intros Hk. destruct (has_id key id l) eqn:H.
  - apply has_id_In. rewrite Hk. now apply has_id_In.
  - apply has_id_false_In. rewrite Hk. now apply has_id_false_In.
Qed.

Lemma has_id_app {A : Type} (key : A -> string) (id : string) (l l' : list A) :
  has_id key id l = true -> has_id key id (l ++ l') = true.
Proof.
  rewrite !has_id_In, map_app. intros H. apply in_or_app. now left.
Qed.

Lemma insert_sale_cases (fault : option string) (id now : string)
    (payload : SaleInsert) (db : Db) :
  fst (insert_sale fault id now payload db) = db
  \/ exists row,
       sr_id row = id /\ has_id sr_id id (db_sales db) = false
       /\ fst (insert_sale fault id now payload db)
          = mkDb (db_products db) (db_sales db ++ [row]) (db_sale_items db).
Proof.
  unfold insert_sale. destruct fault; [now left|].
  destruct (ins_total_amount payload) as [total|]; [|now left].
  destruct (has_id sr_id id (db_sales db)) eqn:Hid; [now left|].
  right.
  exists (mkSaleRow id (ins_customer_name payload) (ins_status payload) total now).
  simpl. repeat split.
Qed.

Lemma insert_sale_items_cases (fault : option string) (gen : nat -> string)
    (rows : list SaleItemInsert) (db : Db) :
  fst (insert_sale_items fault gen rows db) = db
  \/ exists new_rows ps',
       insert_rows gen 0 rows (db_sale_items db) = Ok new_rows
       /\ after_insert_rows new_rows (db_sales db) (db_products db) = Ok ps'
       /\ fst (insert_sale_items fault gen rows db)
          = mkDb ps' (db_sales db) (db_sale_items db ++ new_rows).
Proof.
  unfold insert_sale_items. destruct fault; [now left|].
  destruct (insert_rows gen 0 rows (db_sale_items db)) as [new_rows|e]; [|now left].
  destruct (after_insert_rows _ _ _) as [ps'|e] eqn:Hafter; [|now left].
  right. now exists new_rows, ps'.
Qed.

Lemma decrement_keys (NEW : SaleItemRow) (ps : list Product) :
  map p_id (map (decrement_for NEW) ps) = map p_id ps.
Proof. rewrite map_map. apply map_ext. intros x. apply decrement_for_id. Qed.

Lemma after_insert_rows_keys (sales_table : list SaleRow) (new_rows : list SaleItemRow) :
  forall ps ps' : list Product,
    after_insert_rows new_rows sales_table ps = Ok ps' ->
    map p_id ps' = map p_id ps
    /\ Forall (fun r => has_id sr_id (ir_sale_id r) sales_table = true
                        /\ has_id p_id (ir_product_id r) ps = true) new_rows.
Proof.
  induction new_rows as [|NEW rest IH]; intros ps ps'; simpl.
  - intros H. injection H as <-. split; [reflexivity | constructor].
  - destruct (has_id sr_id (ir_sale_id NEW) sales_table) eqn:Hs; [|discriminate].
    destruct (has_id p_id (ir_product_id NEW) ps) eqn:Hp; [|discriminate]. simpl.
    destruct (update_stock_on_sale_item NEW ps) as [ps1|e] eqn:Hupd; [|discriminate].
    intros Hrest. apply update_stock_ok in Hupd. subst ps1.
    destruct (IH _ _ Hrest) as [Hk Hall]. rewrite decrement_keys in Hk.
    split; [exact Hk|]. constructor; [now split|].
    eapply Forall_impl; [|exact Hall]. intros r [H1 H2]. split; [exact H1|].
    rewrite <- H2. symmetry. apply has_id_same_keys. apply decrement_keys.
Qed.

Lemma insert_rows_fresh (gen : nat -> string) (rows : list SaleItemInsert) :
  forall (i : nat) (table new_rows : list SaleItemRow),
    insert_rows gen i rows table = Ok new_rows ->
    NoDup (map ir_id table) -> NoDup (map ir_id (table ++ new_rows)).
Proof.
  induction rows as [|r rows IH]; intros i table new_rows; simpl.
  - intros H. injection H as <-. now rewrite app_nil_r.
  - destruct (sale_item_row (gen i) r) as [row|e]; [|discriminate].
    destruct (has_id ir_id (ir_id row) table) eqn:Hid; [discriminate|].
    destruct (insert_rows gen (S i) rows (table ++ [row])) as [rest|e] eqn:Hrest;
      [|discriminate].
    intros H Hnd. injection H as <-.
    replace (table ++ row :: rest) with ((table ++ [row]) ++ rest)
      by (now rewrite <- app_assoc).
    apply (IH _ _ _ Hrest). rewrite map_app. simpl.
    apply NoDup_app; [assumption | constructor; [intros [] | constructor] |].
    intros x Hx [Hx'|[]]. subst x. apply has_id_false_In in Hid. contradiction.
Qed.

Lemma sold_app (l1 l2 : list SaleItemRow) (id : string) :
  sold (l1 ++ l2) id = sold l1 id + sold l2 id.
Proof. unfold sold. now rewrite filter_app, map_app, Zsum_app. Qed.

Lemma update_status_keys (saleId : string) (st : Status) (rows : list SaleRow) :
  map sr_id (map (fun r => if String.eqb (sr_id r) saleId then set_status r st else r) rows)
  = map sr_id rows.
Proof.
  rewrite map_map. apply map_ext. intros r. now destruct (String.eqb _ _).
Qed.

Lemma apply_op_foreign_keys (db : Db) (op : StoreOp) :
  foreign_keys_hold db -> foreign_keys_hold (apply_op db op).
Proof.
  unfold foreign_keys_hold. intros Hfk. destruct op as [f id now pl | f gen rows | f id st];
    simpl.
  - destruct (insert_sale_cases f id now pl db) as [-> | [row (_ & _ & ->)]];
      [assumption|]. simpl.
    eapply Forall_impl; [|exact Hfk]. intros r [H1 H2]. split; [|exact H2].
    now apply has_id_app.
  - destruct (insert_sale_items_cases f gen rows db)
      as [-> | [new [ps' (_ & Hafter & ->)]]]; [assumption|]. simpl.
    destruct (after_insert_rows_keys _ _ _ _ Hafter) as [Hk Hnew].
    apply Forall_app. split.
    + eapply Forall_impl; [|exact Hfk]. intros r [H1 H2]. split; [exact H1|].
      rewrite <- H2. now apply has_id_same_keys.
    + eapply Forall_impl; [|exact Hnew]. intros r [H1 H2]. split; [exact H1|].
      rewrite <- H2. now apply has_id_same_keys.
  - unfold update_sale_status. destruct f; [assumption|]. simpl.
    eapply Forall_impl; [|exact Hfk]. intros r [H1 H2]. split; [|exact H2].
    rewrite <- H1. apply has_id_same_keys. apply update_status_keys.
Qed.

Lemma apply_op_primary_keys (db : Db) (op : StoreOp) :
  primary_keys_hold db -> primary_keys_hold (apply_op db op).
Proof.
  unfold primary_keys_hold. intros (Hp & Hs & Hi).
  destruct op as [f id now pl | f gen rows | f id st]; simpl.
  - destruct (insert_sale_cases f id now pl db) as [-> | [row (Hid & Hfresh & ->)]];
      [tauto|]. simpl. repeat split; try assumption.
    rewrite map_app. simpl.
    apply NoDup_app; [assumption | constructor; [intros [] | constructor] |].
    intros x Hx [Hx'|[]]. subst x. rewrite Hid in Hx.
    apply has_id_false_In in Hfresh. contradiction.
  - destruct (insert_sale_items_cases f gen rows db)
      as [-> | [new [ps' (Hrows & Hafter & ->)]]]; [tauto|]. simpl.
    destruct (after_insert_rows_keys _ _ _ _ Hafter) as [Hk _].
    rewrite Hk. repeat split; try assumption.
    eapply insert_rows_fresh; eassumption.
  - unfold update_sale_status. destruct f; [tauto|]. simpl.
    rewrite update_status_keys. tauto.
Qed.

Lemma Forall2_map_same {A : Type} (R : A -> A -> Prop) (f : A -> A) (l : list A) :
  (forall x, R x (f x)) -> Forall2 R l (map f l).
Proof. intros H. induction l; simpl; constructor; auto. Qed.

Lemma Forall2_trans {A : Type} (R : A -> A -> Prop) :
  (forall x y z, R x y -> R y z -> R x z) ->
  forall l1 l2 l3, Forall2 R l1 l2 -> Forall2 R l2 l3 -> Forall2 R l1 l3.
Proof.
  intros HR l1 l2 l3 H12. revert l3.
  induction H12; intros l3 H23; inversion H23; subst; constructor; eauto.
Qed.

Lemma same_product_refl (a : Product) : same_product_but_stock a a.
Proof. unfold same_product_but_stock. tauto. Qed.

Lemma same_product_trans (a b c : Product) :
  same_product_but_stock a b -> same_product_but_stock b c -> same_product_but_stock a c.
Proof. unfold same_product_but_stock. intuition congruence. Qed.

Lemma same_sale_refl (a : SaleRow) : same_sale_but_status a a.
Proof. unfold same_sale_but_status. tauto. Qed.

Lemma same_sale_trans (a b c : SaleRow) :
  same_sale_but_status a b -> same_sale_but_status b c -> same_sale_but_status a c.
Proof. unfold same_sale_but_status. intuition congruence. Qed.

Lemma evolves_refl (db : Db) : evolves db db.
Proof.
  unfold evolves. split; [|split; [reflexivity|split]].
  - rewrite <- (map_id (db_products db)) at 2.
    apply Forall2_map_same. apply same_product_refl.
  - exists (db_sales db), []. split; [now rewrite app_nil_r|].
    rewrite <- (map_id (db_sales db)) at 2.
    apply Forall2_map_same. apply same_sale_refl.
  - exists []. now rewrite app_nil_r.
Qed.

Lemma evolves_trans (db1 db2 db3 : Db) :
  evolves db1 db2 -> evolves db2 db3 -> evolves db1 db3.
Proof.
  unfold evolves.
  intros (Hp1 & Hc1 & (k1 & n1 & Hs1 & Hk1) & (i1 & Hi1))
         (Hp2 & Hc2 & (k2 & n2 & Hs2 & Hk2) & (i2 & Hi2)).
  split; [|split; [congruence|split]].
  - eapply Forall2_trans; [apply same_product_trans | eassumption | eassumption].
  - rewrite Hs1 in Hk2. apply Forall2_app_inv_l in Hk2.
    destruct Hk2 as (k21 & k22 & Hk21 & _ & ->).
    exists k21, (k22 ++ n2). split; [now rewrite Hs2, app_assoc|].
    eapply Forall2_trans; [apply same_sale_trans | eassumption | eassumption].
  - exists (i1 ++ i2). now rewrite Hi2, Hi1, app_assoc.
Qed.

Lemma apply_op_evolves (db : Db) (op : StoreOp) : evolves db (apply_op db op).
Proof.
  destruct op as [f id now pl | f gen rows | f id st]; simpl.
  - destruct (insert_sale_cases f id now pl db) as [-> | [row (_ & _ & ->)]];
      [apply evolves_refl|].
    destruct (evolves_refl db) as (Hp & _ & _ & _).
    unfold evolves. simpl. split; [exact Hp|]. split; [reflexivity|]. split.
    + exists (db_sales db), [row]. split; [reflexivity|].
      rewrite <- (map_id (db_sales db)) at 2.
      apply Forall2_map_same. apply same_sale_refl.
    + exists []. now rewrite app_nil_r.
  - destruct (insert_sale_items_cases f gen rows db)
      as [-> | [new [ps' (_ & Hafter & ->)]]]; [apply evolves_refl|].
    apply after_insert_rows_sold in Hafter. subst ps'.
    destruct (evolves_refl db) as (_ & _ & Hs & _).
    unfold evolves. simpl. split; [|split; [|split; [exact Hs|]]].
    + apply Forall2_map_same. intros x. unfold same_product_but_stock. simpl. tauto.
    + unfold stock_and_sold. simpl. rewrite map_map. apply map_ext.
      intros x. simpl. rewrite sold_app. lia.
    + now exists new.
  - unfold update_sale_status. destruct f; [apply evolves_refl|]. simpl.
    destruct (evolves_refl db) as (Hp & _ & _ & Hi).
    unfold evolves. simpl. split; [exact Hp|]. split; [reflexivity|].
    split; [|exact Hi].
    eexists _, []. split; [now rewrite app_nil_r|].
    apply Forall2_map_same. intros r. unfold same_sale_but_status.
    destruct (String.eqb (sr_id r) id); simpl; tauto.
Qed.

(** The store after one step of the system is the store before, after some
    operations of the store. *)
Lemma step_ops (a : Action) (w : World) :
  exists ops, w_db (step a w) = fold_left apply_op ops (w_db w).
Proof.
  destruct a; simpl; frame; try (now exists []).
  - destruct (String.eqb_spec (trim (customerName (w_ui w))) "") as [He|Hname].
    { destruct (handleSaleSubmit_rejected env w (or_introl He)) as [m ->]. now exists []. }
    destruct (cart (w_ui w)) as [|c0 cs] eqn:Hc.
    { destruct (handleSaleSubmit_rejected env w (or_intror Hc)) as [m ->]. now exists []. }
    assert (Hcart : cart (w_ui w) <> []) by (rewrite Hc; discriminate).
    rewrite (handleSaleSubmit_started env w Hname Hcart). cbv zeta.
    destruct (snd (sale_step env w)) as [saleData|e].
    + exists [OpInsertSale (sale_fault env) (sale_uuid env) (sale_now env)
                (sale_payload (w_ui w));
              OpInsertSaleItems (items_fault env) (item_uuid env)
                (saleItems_of_cart (w_ui w) saleData)].
      destruct (snd (items_step env w saleData)); frame; reflexivity.
    + exists [OpInsertSale (sale_fault env) (sale_uuid env) (sale_now env)
                (sale_payload (w_ui w))]. reflexivity.
  - exists [OpUpdateSaleStatus (update_fault env) saleId fulfilled].
    unfold markAsFulfilled. simpl.
    destruct (update_sale_status _ _ _ _) as [db1 [u|e]]; frame; reflexivity.
Qed.

Lemma run_ops (actions : list Action) :
  forall w : World, exists ops, w_db (run actions w) = fold_left apply_op ops (w_db w).
Proof.
  unfold run. induction actions as [|a actions IH]; intros w; simpl.
  - now exists [].
  - destruct (IH (step a w)) as [ops2 H2]. destruct (step_ops a w) as [ops1 H1].
    exists (ops1 ++ ops2). now rewrite fold_left_app, <- H1.
Qed.

Lemma ops_evolves (ops : list StoreOp) : forall db, evolves db (fold_left apply_op ops db).
Proof.
  induction ops as [|op ops IH]; intros db; simpl; [apply evolves_refl|].
  eapply evolves_trans; [apply apply_op_evolves | apply IH].
Qed.

Lemma ops_integrity (ops : list StoreOp) :
  forall db, foreign_keys_hold db -> primary_keys_hold db ->
             foreign_keys_hold (fold_left apply_op ops db)
             /\ primary_keys_hold (fold_left apply_op ops db).
Proof.
  induction ops as [|op ops IH]; intros db Hfk Hpk; simpl; [now split|].
  apply IH; [now apply apply_op_foreign_keys | now apply apply_op_primary_keys].
Qed.

(** X9: the store keeps its keys.  If every line item refers to a sale and
    to a product of the store, and ids are unique in each table, then the
    same holds after any sequence of the store's operations, and so after
    any sequence of the component's actions. *)
Theorem store_keys_kept (actions : list Action) (ops : list StoreOp) (w : World)
    (Hfk : foreign_keys_hold (w_db w))
    (Hpk : primary_keys_hold (w_db w)) :
  (foreign_keys_hold (fold_left apply_op ops (w_db w))
   /\ primary_keys_hold (fold_left apply_op ops (w_db w)))
  /\ (foreign_keys_hold (w_db (run actions w))
      /\ primary_keys_hold (w_db (run actions w))).
Proof.
  split; [now apply ops_integrity|].
  destruct (run_ops actions w) as [ops' ->]. now apply ops_integrity.
Qed.

(** X10: nothing the component does deletes or rewrites history.  After
    any sequence of actions the store has the same products in the same
    order, with the same ids, names, prices and costs; every sale that was
    there is still there, in place, with the same id, customer, total and
    date; and the line items that were there are there unchanged, new ones
    coming after them. *)
Theorem store_history_kept (actions : list Action) (w : World) :
  let db := w_db w in
  let db' := w_db (run actions w) in
  Forall2 same_product_but_stock (db_products db) (db_products db')
  /\ (exists kept new_sales,
         db_sales db' = kept ++ new_sales
         /\ Forall2 same_sale_but_status (db_sales db) kept)
  /\ (exists new_items, db_sale_items db' = db_sale_items db ++ new_items).
Proof.
  cbv zeta. destruct (run_ops actions w) as [ops ->].
  destruct (ops_evolves ops (w_db w)) as (Hp & _ & Hs & Hi). tauto.
Qed.

(** X11: stock is conserved.  For every product, its stock plus the
    quantity held by its line items is the same after any sequence of the
    store's operations, and so after any sequence of the component's
    actions: what leaves the stock is in the line items, and nothing
    else moves it. *)
Theorem stock_conserved (actions : list Action) (ops : list StoreOp) (w : World) :
  stock_and_sold (fold_left apply_op ops (w_db w)) = stock_and_sold (w_db w)
  /\ stock_and_sold (w_db (run actions w)) = stock_and_sold (w_db w).
Proof.
  split.
  - now destruct (ops_evolves ops (w_db w)) as (_ & Hc & _).
  - destruct (run_ops actions w) as [ops' ->].
    now destruct (ops_evolves ops' (w_db w)) as (_ & Hc & _).
Qed.

(** ** Overselling *)

Lemma update_stock_referenced (NEW : SaleItemRow) (ps ps' : list Product) :
  update_stock_on_sale_item NEW ps = Ok ps' ->
  forall x, In x ps' -> p_id x = ir_product_id NEW -> 0 <= p_stock x.
Proof.
  rewrite update_stock_unfold. rewrite <- filter_decrement.
  intros Hupd x Hin Hid.
  assert (Hps' : ps' = map (decrement_for NEW) ps).
  { destruct (filter _ (map _ ps)) as [|p [|p' l]]; [congruence | | discriminate].
    destruct (p_stock p <? 0); [discriminate | congruence]. }
  subst ps'.
  assert (Hf : In x (filter (fun x => String.eqb (p_id x) (ir_product_id NEW))
                       (map (decrement_for NEW) ps)))
    by (apply filter_In; split; [assumption | now apply String.eqb_eq]).
  destruct (filter _ (map _ ps)) as [|p [|p' l]]; [destruct Hf | | discriminate].
  destruct (p_stock p <? 0) eqn:Hneg; [discriminate|].
  destruct Hf as [->|[]]. now apply Z.ltb_ge in Hneg.
Qed.

Lemma sold_unreferenced (rows : list SaleItemRow) (id : string) :
  ~ In id (map ir_product_id rows) -> sold rows id = 0.
Proof.
  unfold sold. induction rows as [|r rows IH]; simpl; intros Hn; [reflexivity|].
  destruct (String.eqb_spec (ir_product_id r) id) as [He|He].
  - exfalso. apply Hn. now left.
  - apply IH. tauto.
Qed.

Lemma after_insert_rows_referenced (sales_table : list SaleRow)
    (new_rows : list SaleItemRow) :
  forall ps ps' : list Product,
    after_insert_rows new_rows sales_table ps = Ok ps' ->
    forall x, In x ps' -> In (p_id x) (map ir_product_id new_rows) -> 0 <= p_stock x.
Proof.
  induction new_rows as [|NEW rest IH]; intros ps ps' Hafter x Hin Href;
    [destruct Href|].
  simpl in Hafter.
  destruct (negb (has_id sr_id (ir_sale_id NEW) sales_table)); [discriminate|].
  destruct (negb (has_id p_id (ir_product_id NEW) ps)); [discriminate|].
  destruct (update_stock_on_sale_item NEW ps) as [ps1|e] eqn:Hupd; [|discriminate].
  destruct (in_dec string_dec (p_id x) (map ir_product_id rest)) as [Hrest|Hrest].
  - eapply IH; eassumption.
  - destruct Href as [Href|Href]; [|contradiction].
    pose proof (after_insert_rows_sold _ _ _ _ Hafter) as Hps'. subst ps'.
    apply in_map_iff in Hin. destruct Hin as [x1 [<- Hin1]]. simpl in *.
    rewrite (sold_unreferenced _ _ Hrest).
    pose proof (update_stock_referenced _ _ _ Hupd x1 Hin1 (eq_sym Href)). lia.
Qed.

(** X12: the trigger never lets an insert oversell.  When an insert of
    line items is accepted, then for every product that a new row refers
    to, the quantities inserted for it add up to no more than the stock it
    had, and its stock afterwards is not negative, whatever the stocks of
    the other products were. *)
Theorem insert_never_oversells (fault : option string) (gen : nat -> string)
    (rows : list SaleItemInsert) (db : Db)
    (Haccepted : snd (insert_sale_items fault gen rows db) = Ok tt) :
  exists new_rows,
    db_sale_items (fst (insert_sale_items fault gen rows db))
    = db_sale_items db ++ new_rows
    /\ (forall p, In p (db_products db) ->
          In (p_id p) (map ir_product_id new_rows) ->
          sold new_rows (p_id p) <= p_stock p)
    /\ (forall p', In p' (db_products (fst (insert_sale_items fault gen rows db))) ->
          In (p_id p') (map ir_product_id new_rows) -> 0 <= p_stock p').
Proof.
  unfold insert_sale_items in *. destruct fault; [discriminate|].
  destruct (insert_rows gen 0 rows (db_sale_items db)) as [new_rows|e]; [|discriminate].
  destruct (after_insert_rows _ _ _) as [ps'|e] eqn:Hafter; [|discriminate].
  simpl. exists new_rows. split; [reflexivity|].
  pose proof (after_insert_rows_referenced _ _ _ _ Hafter) as Href. split.
  - intros p Hin Hp.
    pose proof (after_insert_rows_sold _ _ _ _ Hafter) as Hps'.
    assert (Hin' : In (set_stock p (p_stock p - sold new_rows (p_id p))) ps')
      by (rewrite Hps'; apply in_map_iff; now exists p).
    specialize (Href _ Hin' Hp). simpl in Href. lia.
  - exact Href.
Qed.

(** ** A submission that goes through, and one that stops half way *)

Lemma Forall2_map_left {A B C : Type} (R : B -> C -> Prop) (f : A -> B)
    (l : list A) (l' : list C) :
  Forall2 R (map f l) l' -> Forall2 (fun a c => R (f a) c) l l'.
Proof.
  revert l'. induction l as [|a l IH]; intros l' H; inversion H; subst;
    constructor; auto.
Qed.

Lemma saleItems_stored (st : State) (saleData : SaleRow) (gen : nat -> string)
    (i : nat) (table new_rows : list SaleItemRow) :
  insert_rows gen i (saleItems_of_cart st saleData) table = Ok new_rows ->
  Forall2 (stored_for st (sr_id saleData)) (cart st) new_rows.
Proof.
  intros Hrows. apply insert_rows_rows in Hrows. unfold saleItems_of_cart in Hrows.
  apply Forall2_map_left in Hrows.
  eapply Forall2_impl; [|exact Hrows]. clear Hrows.
  intros entry row [id Hrow]. unfold sale_item_row in Hrow. simpl in Hrow.
  unfold stored_for, current_price.
  destruct (ci_quantity entry) as [q|]; [|discriminate]. simpl in Hrow.
  injection Hrow as <-. simpl. repeat split.
Qed.

Lemma stored_units (st : State) (saleId id : string)
    (c : list CartItem) (rows : list SaleItemRow) :
  Forall2 (stored_for st saleId) c rows -> JNum (sold rows id) = cart_units c id.
Proof.
  unfold sold, cart_units, jsum.
  induction 1 as [|entry row c rows (_ & Hp & Hq & _) _ IH]; simpl; [reflexivity|].
  rewrite Hp. destruct (String.eqb (ci_product_id entry) id); simpl; [|exact IH].
  rewrite <- IH, <- Hq. reflexivity.
Qed.


(** A submission whose two inserts succeed, in terms of the store. *)
Lemma submit_success (env : SubmitEnv) (w : World) (saleData : SaleRow) :
  trim (customerName (w_ui w)) <> "" -> cart (w_ui w) <> [] ->
  snd (sale_step env w) = Ok saleData ->
  is_ok (snd (items_step env w saleData)) = true ->
  exists new_rows,
    w_db (handleSaleSubmit env w)
    = mkDb (map (fun x => set_stock x (p_stock x - sold new_rows (p_id x)))
              (db_products (w_db w)))
        (db_sales (w_db w) ++ [saleData])
        (db_sale_items (w_db w) ++ new_rows)
    /\ Forall2 (stored_for (w_ui w) (sr_id saleData)) (cart (w_ui w)) new_rows
    /\ after_insert_rows new_rows (db_sales (w_db w) ++ [saleData]) (db_products (w_db w))
       = Ok (map (fun x => set_stock x (p_stock x - sold new_rows (p_id x)))
               (db_products (w_db w))).
Proof.
  intros Hname Hcart Hsale Hitems.
  rewrite (handleSaleSubmit_started env w Hname Hcart). cbv zeta. rewrite Hsale.
  destruct (snd (items_step env w saleData)) as [u|e] eqn:Hi; [|discriminate].
  frame. simpl.
  destruct (insert_sale_created _ _ _ _ _ _ Hsale) as (Hdb & _).
  fold (sale_step env w) in Hdb.
  unfold items_step, insert_sale_items in Hi |- *.
  destruct (items_fault env); [discriminate|].
  rewrite Hdb in Hi |- *. simpl in Hi |- *.
  destruct (insert_rows _ _ _ _) as [new_rows|e] eqn:Hrows; [|discriminate].
  destruct (after_insert_rows _ _ _) as [ps'|e] eqn:Hafter; [|discriminate].
  simpl. exists new_rows.
  pose proof (after_insert_rows_sold _ _ _ _ Hafter) as Hps'. subst ps'.
  split; [reflexivity|]. split; [|exact Hafter].
  eapply saleItems_stored; eassumption.
Qed.



Lemma no_items_of_new_sale (db : Db) (id : string) :
  foreign_keys_hold db -> has_id sr_id id (db_sales db) = false ->
  filter (fun r => String.eqb (ir_sale_id r) id) (db_sale_items db) = [].
Proof.
  unfold foreign_keys_hold. intros Hfk Hfresh.
  induction (db_sale_items db) as [|r rows IH]; simpl; [reflexivity|].
  inversion Hfk as [|x l [Hs _] Hrest]; subst.
  destruct (String.eqb_spec (ir_sale_id r) id) as [He|He].
  - rewrite He in Hs. congruence.
  - now apply IH.
Qed.

(** X15: when the sale insert succeeds and the line-items insert fails, the
    store is left with the new sale, carrying the cart total, and with no
    line item for it (its embedded list is empty); products and line items
    are as before.  The component fetches nothing: its snapshots do not
    show the sale, and the cart is still there to be submitted again. *)
Theorem submit_leaves_orphan (env : SubmitEnv) (w : World) (saleData : SaleRow)
    (itemsError : ServiceError)
    (Hname : trim (customerName (w_ui w)) <> "")
    (Hcart : cart (w_ui w) <> [])
    (Hfk : foreign_keys_hold (w_db w))
    (Hsale : snd (sale_step env w) = Ok saleData)
    (Hitems : snd (items_step env w saleData) = Err itemsError) :
  let w' := handleSaleSubmit env w in
  w_db w' = mkDb (db_products (w_db w)) (db_sales (w_db w) ++ [saleData])
              (db_sale_items (w_db w))
  /\ JNum (sr_total_amount saleData) = getCartTotal (w_ui w)
  /\ sr_status saleData = not_fulfilled
  /\ sale_items_of (w_db w') (sr_id saleData) = []
  /\ sales (w_ui w') = sales (w_ui w)
  /\ products (w_ui w') = products (w_ui w)
  /\ metrics (w_ui w') = metrics (w_ui w)
  /\ cart (w_ui w') = cart (w_ui w)
  /\ isSubmitting (w_ui w') = false.
Proof.
  cbv zeta.
  destruct (insert_sale_created _ _ _ _ _ _ Hsale)
    as (Hdb & Hid & _ & Hst & Htotal & Hfresh).
  fold (sale_step env w) in Hdb.
  assert (Hdb' : w_db (handleSaleSubmit env w)
                 = mkDb (db_products (w_db w)) (db_sales (w_db w) ++ [saleData])
                     (db_sale_items (w_db w))).
  { rewrite (handleSaleSubmit_started env w Hname Hcart). cbv zeta.
    rewrite Hsale, Hitems. simpl. rewrite <- Hdb.
    unfold items_step in *. eapply insert_sale_items_rejected; eassumption. }
  split; [exact Hdb'|]. split; [exact Htotal|]. split; [exact Hst|]. split.
  - rewrite Hdb'. unfold sale_items_of. simpl.
    rewrite Hid, (no_items_of_new_sale _ _ Hfk Hfresh). reflexivity.
  - rewrite (handleSaleSubmit_started env w Hname Hcart). cbv zeta.
    rewrite Hsale, Hitems. simpl. repeat split.
Qed.

(** X16: the client checks a quantity against the stock of its snapshot,
    the store against its own.  If the cart holds, of some product of the
    store, more than the store has in stock, the line-items insert of the
    submission cannot succeed. *)
Theorem submit_oversell_refused (env : SubmitEnv) (w : World) (saleData : SaleRow)
    (p : Product) (units : Z)
    (Hname : trim (customerName (w_ui w)) <> "")
    (Hcart : cart (w_ui w) <> [])
    (Hsale : snd (sale_step env w) = Ok saleData)
    (Hp : In p (db_products (w_db w)))
    (Hin : In (p_id p) (cart_ids (cart (w_ui w))))
    (Hunits : cart_units (cart (w_ui w)) (p_id p) = JNum units)
    (Hover : p_stock p < units) :
  is_ok (snd (items_step env w saleData)) = false
  /\ db_products (w_db (handleSaleSubmit env w)) = db_products (w_db w)
  /\ db_sale_items (w_db (handleSaleSubmit env w)) = db_sale_items (w_db w)
  /\ db_sales (w_db (handleSaleSubmit env w)) = db_sales (w_db w) ++ [saleData]
  /\ cart (w_ui (handleSaleSubmit env w)) = cart (w_ui w).
Proof.
  assert (Hfail : is_ok (snd (items_step env w saleData)) = false).
  { destruct (is_ok (snd (items_step env w saleData))) eqn:Hok; [|reflexivity].
    exfalso.
    destruct (submit_success env w saleData Hname Hcart Hsale Hok)
      as (new_rows & _ & Hstored & Hafter).
    assert (Hids : map ir_product_id new_rows = cart_ids (cart (w_ui w))).
    { unfold cart_ids. clear - Hstored.
      induction Hstored as [|entry row c rows (_ & Hpid & _) _ IH]; simpl;
        [reflexivity | now rewrite Hpid, IH]. }
    rewrite <- Hids in Hin.
    assert (Hin' : In (set_stock p (p_stock p - sold new_rows (p_id p)))
                     (map (fun x => set_stock x (p_stock x - sold new_rows (p_id x)))
                        (db_products (w_db w))))
      by (apply in_map_iff; now exists p).
    pose proof (after_insert_rows_referenced _ _ _ _ Hafter _ Hin' Hin) as H.
    pose proof (stored_units _ _ (p_id p) _ _ Hstored) as Hu.
    rewrite Hunits in Hu. injection Hu as Hu. simpl in H. lia. }
  split; [exact Hfail|].
  destruct (snd (items_step env w saleData)) as [u|e] eqn:Hitems; [discriminate|].
  destruct (insert_sale_created _ _ _ _ _ _ Hsale) as (Hdb & _).
  fold (sale_step env w) in Hdb.
  rewrite (handleSaleSubmit_started env w Hname Hcart). cbv zeta.
  rewrite Hsale, Hitems. simpl.
  unfold items_step in *. rewrite (insert_sale_items_rejected _ _ _ _ _ Hitems), Hdb.
  simpl. repeat split.
Qed.

(** ** The metrics after a refresh *)

Lemma insert_by_perm {A : Type} (le : A -> A -> bool) (x : A) (l : list A) :
  Permutation (insert_by le x l) (x :: l).
Proof.
  induction l as [|y l IH]; simpl; [reflexivity|].
  destruct (le x y); [reflexivity|].
  rewrite IH. apply perm_swap.
Qed.

Lemma order_by_perm {A : Type} (le : A -> A -> bool) (l : list A) :
  Permutation (order_by le l) l.
Proof.
  unfold order_by. induction l as [|x l IH]; simpl; [reflexivity|].
  rewrite insert_by_perm. now constructor.
Qed.







(** ** The earlier component *)

Lemma fold_left_Zadd {A : Type} (f : A -> Z) (l : list A) (acc : Z) :
  fold_left (fun sum x => sum + f x) l acc = acc + Zsum (map f l).
Proof.
  revert acc. induction l as [|x l IH]; intros acc; simpl; [lia | rewrite IH; lia].
Qed.

Lemma legacy_profit_fold (P : list Product) (S : list Legacy.Sale) (acc : Z) :
  fold_left
    (fun sum sale =>
       match find_product P (Legacy.product_id sale) with
       | Some product =>
           sum + (Legacy.unit_price sale - p_cost product) * Legacy.quantity sale
       | None => sum
       end) S acc
  = acc + Zsum (map (profit_contribution P) (all_items (map as_order S))).
Proof.
  revert acc. induction S as [|s S IH]; intros acc; simpl; [lia|].
  rewrite IH. unfold profit_contribution at 2, occurs_in_products, current_cost. simpl.
  destruct (find_product P (Legacy.product_id s)) as [p|] eqn:Hfind.
  - assert (Hocc : has_id p_id (Legacy.product_id s) P = true)
      by (apply has_id_find_product; now exists p).
    rewrite Hocc. lia.
  - apply has_id_false_find_product in Hfind. rewrite Hfind. lia.
Qed.

(** X18: the later [calculateMetrics], on sales of one line item each,
    computes what the earlier [calculateMetrics] computed on the sales
    they come from: the same count, revenue, units and profit. *)
Theorem legacy_metrics_agree (P : list Product) (S : list Legacy.Sale) :
  Legacy.calculateMetrics S P = calculateMetrics (map as_order S) P.
Proof.
  rewrite calculateMetrics_eq. unfold Legacy.calculateMetrics.
  rewrite !fold_left_Zadd, legacy_profit_fold. simpl.
  unfold spec_totalRevenue, spec_totalUnits, spec_totalProfit.
  rewrite profit_by_contribution, length_map, map_map. f_equal.
  clear. induction S as [|s S IH]; simpl; [reflexivity | now rewrite IH].
Qed.







(** ** Numerals *)













(** ** What the form shows after a submission that went through *)

Lemma submit_success_ui (env : SubmitEnv) (w : World) (saleData : SaleRow) :
  trim (customerName (w_ui w)) <> "" -> cart (w_ui w) <> [] ->
  snd (sale_step env w) = Ok saleData ->
  is_ok (snd (items_step env w saleData)) = true ->
  products_fault env = None -> sales_fault env = None ->
  let w' := handleSaleSubmit env w in
  products (w_ui w')
  = order_by (fun a b => String.leb (p_name a) (p_name b)) (db_products (w_db w'))
  /\ sales (w_ui w')
     = order_by (fun a b => String.leb (s_sale_date b) (s_sale_date a))
         (map (sale_of_row (w_db w')) (db_sales (w_db w')))
  /\ cart (w_ui w') = []
  /\ customerName (w_ui w') = ""
  /\ isSubmitting (w_ui w') = false.
Proof.
  intros Hname Hcart Hsale Hitems Hp Hs. cbv zeta.
  rewrite (handleSaleSubmit_started env w Hname Hcart). cbv zeta. rewrite Hsale.
  destruct (snd (items_step env w saleData)) as [u|e]; [|discriminate].
  rewrite Hp, Hs. unfold fetchSales, fetchProducts, select_sales, select_products.
  simpl. repeat split.
Qed.

Lemma stored_rows_of_sale (st : State) (saleId : string)
    (c : list CartItem) (rows : list SaleItemRow) :
  Forall2 (stored_for st saleId) c rows ->
  filter (fun r => String.eqb (ir_sale_id r) saleId) rows = rows.
Proof.
  induction 1 as [|entry row c rows (Hs & _) _ IH]; simpl; [reflexivity|].
  rewrite Hs, String.eqb_refl, IH. reflexivity.
Qed.

(** X21: when both inserts of a submission succeed and the two fetches it
    starts are answered, the form is cleared (empty cart, empty customer
    name, not submitting), the product list shown is the store's, with the
    stocks as the trigger left them, and the new sale is among the orders
    to fulfil, under the trimmed customer name, with the stored total and
    exactly the line items stored for the cart, one per entry. *)
Theorem submit_then_refresh (env : SubmitEnv) (w : World) (saleData : SaleRow)
    (Hname : trim (customerName (w_ui w)) <> "")
    (Hcart : cart (w_ui w) <> [])
    (Hsale : snd (sale_step env w) = Ok saleData)
    (Hitems : is_ok (snd (items_step env w saleData)) = true)
    (Hfk : foreign_keys_hold (w_db w))
    (Hp : products_fault env = None)
    (Hs : sales_fault env = None) :
  let w' := handleSaleSubmit env w in
  cart (w_ui w') = []
  /\ customerName (w_ui w') = ""
  /\ isSubmitting (w_ui w') = false
  /\ Permutation (products (w_ui w')) (db_products (w_db w'))
  /\ exists new_rows,
       db_sale_items (w_db w') = db_sale_items (w_db w) ++ new_rows
       /\ Forall2 (stored_for (w_ui w) (sr_id saleData)) (cart (w_ui w)) new_rows
       /\ In (mkSale (sr_id saleData) (trim (customerName (w_ui w))) not_fulfilled
                (sr_total_amount saleData) (sr_sale_date saleData)
                (map (item_of_row (w_db w')) new_rows))
            (pending (sales (w_ui w'))).
Proof.
  cbv zeta.
  destruct (submit_success_ui env w saleData Hname Hcart Hsale Hitems Hp Hs)
    as (Hproducts & Hsales & Hc & Hn & Hsub).
  destruct (submit_success env w saleData Hname Hcart Hsale Hitems)
    as (new_rows & Hdb & Hstored & _).
  split; [exact Hc|]. split; [exact Hn|]. split; [exact Hsub|].
  split; [rewrite Hproducts; apply order_by_perm|].
  assert (Hrows : db_sale_items (w_db (handleSaleSubmit env w))
                  = db_sale_items (w_db w) ++ new_rows) by now rewrite Hdb.
  exists new_rows. split; [exact Hrows|]. split; [exact Hstored|].
  destruct (insert_sale_created _ _ _ _ _ _ Hsale)
    as (_ & Hid & Hcust & Hstatus & _ & Hfresh).
  simpl in Hcust, Hstatus, Hfresh.
  unfold pending. apply filter_In. split; [|reflexivity].
  rewrite Hsales. apply order_by_In. apply in_map_iff. exists saleData. split.
  - unfold sale_of_row. rewrite Hcust, Hstatus. f_equal.
    unfold sale_items_of. rewrite Hrows, filter_app.
    rewrite (stored_rows_of_sale _ _ _ _ Hstored), Hid.
    rewrite (no_items_of_new_sale (w_db w) (sale_uuid env) Hfk Hfresh).
    reflexivity.
  - rewrite Hdb. cbn [db_sales]. apply in_or_app. right. now left.
Qed.

(** ** The calls the component makes *)







(** * The further statements at concrete inputs *)

Lemma addToCart_nan_witness :
  let st := setQuantity ".5" (setSelectedProduct "p-molde" loaded_state) in
  selectedProduct st <> "" /\ quantity st <> ""
  /\ find_product (products st) (selectedProduct st) = Some ketoMolde
  /\ parseInt (quantity st) = JNaN
  /\ In (mkCartItem "p-molde" JNaN) (cart (addToCart st))
  /\ getCartTotal (addToCart st) = JNaN.
Proof.
  cbv zeta.
  assert (Hsel : selectedProduct (setQuantity ".5" (setSelectedProduct "p-molde" loaded_state))
                 <> "") by (simpl; discriminate).
  assert (Hq : quantity (setQuantity ".5" (setSelectedProduct "p-molde" loaded_state)) <> "")
    by (simpl; discriminate).
  split; [exact Hsel|]. split; [exact Hq|]. split; [reflexivity|]. split; [reflexivity|].
  destruct (addToCart_nan
              (setQuantity ".5" (setSelectedProduct "p-molde" loaded_state))
              ketoMolde Hsel Hq eq_refl eq_refl) as (_ & _ & Hin & _ & Ht).
  split; [exact Hin | exact Ht].
Defined.


Lemma markAsFulfilled_nothing_to_do_witness :
  (forall r, In r (db_sales (w_db pending_world)) -> sr_id r = "s-9" ->
             sr_status r = fulfilled)
  /\ w_db (markAsFulfilled fulfil_now "s-9" pending_world) = pending_db.
Proof.
  assert (Hdone : forall r, In r (db_sales (w_db pending_world)) -> sr_id r = "s-9" ->
                            sr_status r = fulfilled).
  { intros r [<-|[]] H. simpl in H. discriminate H. }
  split; [exact Hdone|].
  exact (proj1 (markAsFulfilled_nothing_to_do fulfil_now "s-9" pending_world Hdone)).
Defined.

Lemma pending_db_keys :
  foreign_keys_hold pending_db /\ primary_keys_hold pending_db.
Proof.
  unfold foreign_keys_hold, primary_keys_hold. simpl. split.
  - repeat constructor.
  - repeat split; repeat constructor; simpl; intuition discriminate.
Defined.

Lemma store_keys_kept_witness :
  let actions := [SelectProduct "p-molde"; TypeQuantity "2"; ClickAdd;
                  TypeCustomerName "Luz"; SubmitSale calm_again;
                  ClickFulfill fulfil_now "s-1"] in
  foreign_keys_hold (w_db pending_world) /\ primary_keys_hold (w_db pending_world)
  /\ foreign_keys_hold (w_db (run actions pending_world))
  /\ primary_keys_hold (w_db (run actions pending_world)).
Proof.
  cbv zeta. destruct pending_db_keys as [Hfk Hpk].
  split; [exact Hfk|]. split; [exact Hpk|].
  exact (proj2 (store_keys_kept _ [] pending_world Hfk Hpk)).
Defined.

Lemma insert_never_oversells_witness :
  let rows := [mkSaleItemInsert "s-1" "p-molde" (JNum 5) 6900 (JNum 34500)] in
  snd (insert_sale_items None (item_uuid calm_again) rows pending_db) = Ok tt
  /\ exists new_rows,
       db_sale_items (fst (insert_sale_items None (item_uuid calm_again) rows pending_db))
       = db_sale_items pending_db ++ new_rows
       /\ (forall p, In p (db_products pending_db) ->
             In (p_id p) (map ir_product_id new_rows) ->
             sold new_rows (p_id p) <= p_stock p)
       /\ (forall p',
             In p' (db_products
                      (fst (insert_sale_items None (item_uuid calm_again) rows pending_db))) ->
             In (p_id p') (map ir_product_id new_rows) -> 0 <= p_stock p').
Proof.
  cbv zeta. split; [reflexivity|].
  exact (insert_never_oversells None (item_uuid calm_again)
           [mkSaleItemInsert "s-1" "p-molde" (JNum 5) 6900 (JNum 34500)]
           pending_db eq_refl).
Defined.

Lemma order_world_submits :
  trim (customerName (w_ui order_world)) <> ""
  /\ cart (w_ui order_world) <> []
  /\ snd (sale_step calm order_world) = Ok order_sale
  /\ is_ok (snd (items_step calm order_world order_sale)) = true.
Proof.
  split; [vm_compute; discriminate|]. split; [simpl; discriminate|].
  split; reflexivity.
Defined.



Lemma stale_world_stops :
  trim (customerName (w_ui stale_world)) <> ""
  /\ cart (w_ui stale_world) <> []
  /\ foreign_keys_hold (w_db stale_world)
  /\ snd (sale_step calm stale_world) = Ok order_sale
  /\ snd (items_step calm stale_world order_sale)
     = Err (Raised "Insufficient stock for product").
Proof.
  split; [vm_compute; discriminate|]. split; [simpl; discriminate|].
  split; [constructor|]. split; reflexivity.
Defined.

Lemma submit_leaves_orphan_witness :
  trim (customerName (w_ui stale_world)) <> ""
  /\ cart (w_ui stale_world) <> []
  /\ foreign_keys_hold (w_db stale_world)
  /\ snd (sale_step calm stale_world) = Ok order_sale
  /\ snd (items_step calm stale_world order_sale)
     = Err (Raised "Insufficient stock for product")
  /\ db_sales (w_db (handleSaleSubmit calm stale_world)) = [order_sale]
  /\ sale_items_of (w_db (handleSaleSubmit calm stale_world)) (sr_id order_sale) = [].
Proof.
  destruct stale_world_stops as (Hname & Hcart & Hfk & Hsale & Hitems).
  split; [exact Hname|]. split; [exact Hcart|]. split; [exact Hfk|].
  split; [exact Hsale|]. split; [exact Hitems|].
  destruct (submit_leaves_orphan calm stale_world order_sale
              (Raised "Insufficient stock for product") Hname Hcart Hfk Hsale Hitems)
    as (Hdb & _ & _ & Hnone & _).
  split; [now rewrite Hdb | exact Hnone].
Defined.

Lemma submit_oversell_refused_witness :
  let p := mkProduct "p-molde" "Keto Molde" 6900 4050 1 in
  trim (customerName (w_ui stale_world)) <> ""
  /\ cart (w_ui stale_world) <> []
  /\ snd (sale_step calm stale_world) = Ok order_sale
  /\ In p (db_products (w_db stale_world))
  /\ In (p_id p) (cart_ids (cart (w_ui stale_world)))
  /\ cart_units (cart (w_ui stale_world)) (p_id p) = JNum 2
  /\ p_stock p < 2
  /\ is_ok (snd (items_step calm stale_world order_sale)) = false
  /\ db_products (w_db (handleSaleSubmit calm stale_world)) = db_products (w_db stale_world).
Proof.
  cbv zeta. destruct stale_world_stops as (Hname & Hcart & _ & Hsale & _).
  assert (Hp : In (mkProduct "p-molde" "Keto Molde" 6900 4050 1)
                 (db_products (w_db stale_world))) by (simpl; now left).
  assert (Hin : In (p_id (mkProduct "p-molde" "Keto Molde" 6900 4050 1))
                  (cart_ids (cart (w_ui stale_world)))) by (simpl; now left).
  assert (Hover : p_stock (mkProduct "p-molde" "Keto Molde" 6900 4050 1) < 2)
    by (simpl; lia).
  split; [exact Hname|]. split; [exact Hcart|]. split; [exact Hsale|].
  split; [exact Hp|]. split; [exact Hin|]. split; [reflexivity|]. split; [exact Hover|].
  destruct (submit_oversell_refused calm stale_world order_sale
              (mkProduct "p-molde" "Keto Molde" 6900 4050 1) 2
              Hname Hcart Hsale Hp Hin eq_refl Hover) as (Hfail & Hps & _).
  split; [exact Hfail | exact Hps].
Defined.


Lemma submit_then_refresh_witness :
  trim (customerName (w_ui order_world)) <> ""
  /\ cart (w_ui order_world) <> []
  /\ snd (sale_step calm order_world) = Ok order_sale
  /\ is_ok (snd (items_step calm order_world order_sale)) = true
  /\ foreign_keys_hold (w_db order_world)
  /\ products_fault calm = None
  /\ sales_fault calm = None
  /\ cart (w_ui (handleSaleSubmit calm order_world)) = []
  /\ customerName (w_ui (handleSaleSubmit calm order_world)) = ""
  /\ isSubmitting (w_ui (handleSaleSubmit calm order_world)) = false
  /\ Permutation (products (w_ui (handleSaleSubmit calm order_world)))
       (db_products (w_db (handleSaleSubmit calm order_world)))
  /\ exists new_rows,
       db_sale_items (w_db (handleSaleSubmit calm order_world))
       = db_sale_items (w_db order_world) ++ new_rows
       /\ Forall2 (stored_for (w_ui order_world) (sr_id order_sale))
            (cart (w_ui order_world)) new_rows
       /\ In (mkSale (sr_id order_sale) (trim (customerName (w_ui order_world)))
                not_fulfilled (sr_total_amount order_sale) (sr_sale_date order_sale)
                (map (item_of_row (w_db (handleSaleSubmit calm order_world))) new_rows))
            (pending (sales (w_ui (handleSaleSubmit calm order_world)))).
Proof.
  destruct order_world_submits as (Hname & Hcart & Hsale & Hitems).
  assert (Hfk : foreign_keys_hold (w_db order_world)) by constructor.
  split; [exact Hname|]. split; [exact Hcart|]. split; [exact Hsale|].
  split; [exact Hitems|]. split; [exact Hfk|]. split; [reflexivity|].
  split; [reflexivity|].
  exact (submit_then_refresh calm order_world order_sale Hname Hcart Hsale Hitems Hfk
           eq_refl eq_refl).
Defined.
